(** * gitlab_repo_import.py: a shallow embedding and its properties

    The importer is a sequential pipeline over the operating system, two
    external commands and the GitLab API.  The functions of the script
    ([run], [ignore_files_callback], [do_repo], [get_gitlab_project],
    [import_repo], [update_project_settings], [_get_config], [__init__],
    the settings part of [parse_args]) are embedded one by one in a state
    and exception monad.  What the script calls but does not define
    (os, shutil, subprocess, json, pwd, grp, python-gitlab) is an
    interface, [Platform]; [Sim] is a small executable instance of it. *)

From Stdlib Require Import ZArith String Ascii List Bool Lia.
From stdpp Require Import base strings gmap list.

Set Warnings "-register-all".
Local Open Scope string_scope.
Local Open Scope Z_scope.

(** ** Python strings and [posixpath] *)

Module Py.

(** [s.endswith(suf)]: some suffix of [s] is [suf]. *)
Fixpoint endswith (s suf : string) : bool :=
  String.eqb s suf ||
  match s with
  | EmptyString => false
  | String _ r => endswith r suf
  end.

(** [s.startswith(pre)]. *)
Fixpoint startswith (s pre : string) : bool :=
  match pre, s with
  | EmptyString, _ => true
  | String a pre', String b s' => Ascii.eqb a b && startswith s' pre'
  | String _ _, EmptyString => false
  end.

Fixpoint has_slash (s : string) : bool :=
  match s with
  | EmptyString => false
  | String c r => Ascii.eqb c "/" || has_slash r
  end.

(** [os.path.basename(p)]: [p[p.rfind('/')+1:]]. *)
Fixpoint os_path_basename (p : string) : string :=
  match p with
  | EmptyString => EmptyString
  | String c r =>
      if has_slash r then os_path_basename r
      else if Ascii.eqb c "/" then r else p
  end.

(** One step of [posixpath.join]: an absolute [b] replaces the path, an
    empty path or one that ends in a slash takes [b] as it is, and
    otherwise a slash is put between the two. *)
Definition os_path_join (a b : string) : string :=
  if startswith b "/" then b
  else if String.eqb a "" || endswith a "/" then a +:+ b
  else a +:+ "/" +:+ b.

Definition newline : string := String (ascii_of_nat 10) EmptyString.

(** [re.sub('\.git$', '', s)].  Without MULTILINE, [$] matches at the end
    of the string and just before a newline that ends the string, so the
    pattern matches where the rest of the string is [.git] or [.git\n];
    every other character is kept. *)
Fixpoint re_sub_dot_git_end (s : string) : string :=
  if String.eqb s ".git" then ""
  else if String.eqb s (".git" +:+ newline) then newline
  else match s with
       | EmptyString => EmptyString
       | String c r => String c (re_sub_dot_git_end r)
       end.

End Py.

(** ** Names derived by [do_repo] (lines 192-198) *)

(** [(repo_name, project_name)] after the [if]/[else] of lines 193-197. *)
Definition repo_names (repo_path : string) : string * string :=
  let repo_name := Py.os_path_basename repo_path in
  if negb (Py.endswith repo_name ".git")
  then (repo_name +:+ ".git", repo_name)
  else (repo_name, Py.re_sub_dot_git_end repo_name).

Definition project_name_of (repo_path : string) : string :=
  snd (repo_names repo_path).

Definition dest_path_of (create_path repo_path : string) : string :=
  Py.os_path_join create_path (fst (repo_names repo_path)).


(** ** Python values, exceptions and the log *)

Inductive pyval :=
| PNone
| PBool (b : bool)
| PInt (n : Z)
| PStr (s : string).

Definition is_None (v : pyval) : bool :=
  match v with PNone => true | _ => false end.

(** Truth value of a returned object, as tested by [if self.do_repo(...)]. *)
Definition truthy (v : pyval) : bool :=
  match v with
  | PNone => false
  | PBool b => b
  | PInt n => negb (n =? 0)
  | PStr s => negb (String.eqb s "")
  end.

(** [a == b]; [bool] is a subclass of [int], so [True == 1]. *)
Definition py_eq (a b : pyval) : bool :=
  match a, b with
  | PNone, PNone => true
  | PBool x, PBool y => Bool.eqb x y
  | PInt x, PInt y => x =? y
  | PBool x, PInt y | PInt y, PBool x => Z.b2z x =? y
  | PStr x, PStr y => String.eqb x y
  | _, _ => false
  end.

(** A document returned by [json.loads]. *)
Inductive json :=
| JNull
| JBool (b : bool)
| JNum (n : Z)
| JStr (s : string)
| JArr (items : list json)
| JObj (fields : list (string * json)).

Inductive exn :=
| SystemExit (code : pyval)
| KeyboardInterrupt
| KeyError (key : pyval)
| TypeError
| AttributeError (attr : string)
| OSError (msg : string)
| ShutilError
| CalledProcessError (returncode : Z) (output : string)
| GitlabError (msg : string).

(** [except Exception] does not catch [SystemExit] or
    [KeyboardInterrupt]; a bare [except:] catches everything. *)
Definition is_Exception (e : exn) : bool :=
  match e with
  | SystemExit _ | KeyboardInterrupt => false
  | _ => true
  end.

Definition is_KeyError (e : exn) : bool :=
  match e with KeyError _ => true | _ => false end.

Definition is_CalledProcessError (e : exn) : bool :=
  match e with CalledProcessError _ _ => true | _ => false end.

Inductive level := DEBUG | INFO | WARNING | ERROR | EXCEPTION.

(** A logging call: level, format string, arguments. *)
Record log_record := Log {
  log_level : level;
  log_fmt : string;
  log_args : list pyval
}.

(** ** GitLab projects and the two tables of the script *)

(** A [gitlab.Project] object: the attributes the script reads by name,
    and the attribute dictionary that [getattr]/[setattr] work on. *)
Record Project := mkProject {
  name : string;
  namespace_name : string;
  path_with_namespace : string;
  attrs : gmap string pyval
}.

Definition BOOLEAN_SETTING_NAMES : gmap string string :=
  {[ "issues" := "issues_enabled";
     "merge_requests" := "merge_requests_enabled";
     "wiki" := "wiki_enabled";
     "snippets" := "snippets_enabled" ]}.

Definition VISIBILITY_LEVELS : gmap string Z :=
  {[ "private" := 0; "internal" := 10; "public" := 20 ]}.

(** A call that leaves the process: what was invoked, with its arguments. *)
Inductive call :=
| CCopytree (src dst : string)
| CChown (path : string) (uid gid : Z)
| CMove (src dst : string)
| CRmtree (path : string)
| CCheckOutput (cmd : list string)
| CAuth (url apikey : string)
| CAllProjects
| CCommit (project : string)
| CSave (project : Project).

(** ** The state and exception monad *)

Inductive outcome (A : Type) :=
| Ret (a : A)
| Raise (e : exn).
Arguments Ret {A} a.
Arguments Raise {A} e.

Section Monad.
Context {S : Type}.

(** The world: the state of everything outside the process ([os]), the
    records logged so far and the outside calls made so far (latest
    first), and the one attribute that [do_repo] stashes on [self]. *)
Record World := mkWorld {
  os : S;
  log : list log_record;
  trace : list call;
  refs_remotes_path : option string
}.

Definition M (A : Type) : Type := World -> outcome A * World.

Definition ret {A} (a : A) : M A := fun w => (Ret a, w).

Definition raise {A} (e : exn) : M A := fun w => (Raise e, w).

Definition bind {A B} (m : M A) (k : A -> M B) : M B :=
  fun w =>
    match m w with
    | (Ret a, w') => k a w'
    | (Raise e, w') => (Raise e, w')
    end.

(** [try: m  except <catches>: h].  The effects of [m] up to the
    exception stay. *)
Definition try_except {A} (m : M A) (catches : exn -> bool)
    (h : exn -> M A) : M A :=
  fun w =>
    match m w with
    | (Ret a, w') => (Ret a, w')
    | (Raise e, w') => if catches e then h e w' else (Raise e, w')
    end.

Definition logger (l : level) (fmt : string) (args : list pyval) : M unit :=
  fun w => (Ret tt, mkWorld (os w) (Log l fmt args :: log w) (trace w)
                            (refs_remotes_path w)).

(** An operation of the outside world: it is put on the trace and runs
    on the [os] component alone. *)
Definition ext {A} (c : call) (f : S -> outcome A * S) : M A :=
  fun w =>
    let (r, s') := f (os w) in
    (r, mkWorld s' (log w) (c :: trace w) (refs_remotes_path w)).

(** Reading the outside world. *)
Definition ask {A} (f : S -> A) : M A := fun w => (Ret (f (os w)), w).

Definition set_refs_remotes_path (p : string) : M unit :=
  fun w => (Ret tt, mkWorld (os w) (log w) (trace w) (Some p)).

Definition get_refs_remotes_path : M string :=
  fun w =>
    match refs_remotes_path w with
    | Some p => (Ret p, w)
    | None => (Raise (AttributeError "refs_remotes_path"), w)
    end.

End Monad.
Arguments World S : clear implicits.
Arguments M S A : clear implicits.

Notation "x <- m ;; k" := (bind m (fun x => k))
  (at level 100, m at next level, right associativity,
   format "'[v' x  <-  m ;;  '/' k ']'").
Notation "m ;;; k" := (bind m (fun _ => k))
  (at level 100, right associativity,
   format "'[v' m ;;;  '/' k ']'").

(** [for x in l: body], with the loop's variables threaded as [st]. *)
Fixpoint for_fold {S A St} (l : list A) (body : A -> St -> M S St) (st : St)
    : M S St :=
  match l with
  | [] => ret st
  | x :: l' => st' <- body x st ;; for_fold l' body st'
  end.

Definition for_each {S A} (l : list A) (body : A -> M S unit) : M S unit :=
  for_fold l (fun x _ => body x) tt.

(** ** What the script calls and does not define *)

(** The operations of [os], [shutil], [subprocess], [json], [pwd], [grp]
    and python-gitlab that the script uses, over a state [S] of the
    outside world.  An operation that can fail returns an [outcome].
    [shutil_copytree] calls its [ignore] argument back, so it lives in the
    monad of the script. *)
Class Platform (S : Type) := {
  os_path_exists : string -> S -> bool;
  os_walk : string -> S -> list (string * list string * list string);
  os_chown : string -> Z -> Z -> S -> outcome unit * S;
  shutil_copytree :
    string -> string -> (string -> list string -> M S (list string)) ->
    M S unit;
  shutil_move : string -> string -> S -> outcome unit * S;
  shutil_rmtree : string -> S -> outcome unit * S;
  subprocess_check_output : list string -> S -> outcome string * S;
  json_loads : string -> option json;
  pwd_getpwnam_uid : json -> S -> option Z;
  grp_getgrnam_gid : json -> S -> option Z;
  gitlab_auth : string -> string -> S -> outcome string * S;
  all_projects : S -> outcome (list Project) * S;
  project_Commit : Project -> S -> outcome (list string) * S;
  project_save : Project -> S -> outcome unit * S
}.

(** [self]: the attributes set by [__init__]. *)
Record Importer := mkImporter {
  remove_on_fail : bool;
  ignore_broken_links : bool;
  ignore_refs_remotes : bool;
  git_uid : Z;
  git_gid : Z;
  repos_dir : json
}.

(** The namespace built by [parse_args], as far as the settings go. *)
Record Args := mkArgs {
  arg_visibility : option string;
  arg_enable : string -> bool;
  arg_disable : string -> bool
}.

(** [args.settings] (lines 430-438), listed in the order the dictionary
    is filled.  The order in which Python 2 walks a dictionary is not
    fixed; no property below depends on it. *)
Definition settings_of_args (args : Args) : list (string * pyval) :=
  ("visibility",
   match arg_visibility args with Some v => PStr v | None => PNone end)
  :: map (fun name =>
            (name,
             if arg_enable args name then PBool true
             else if arg_disable args name then PBool false
             else PNone))
         (map fst (map_to_list BOOLEAN_SETTING_NAMES)).

(** [conf[key]] on a decoded document. *)
Fixpoint assoc (key : string) (fields : list (string * json)) : option json :=
  match fields with
  | [] => None
  | (k, v) :: rest => if String.eqb k key then Some v else assoc key rest
  end.

Definition json_arg (j : json) : pyval :=
  match j with
  | JStr s => PStr s
  | JNum n => PInt n
  | JBool b => PBool b
  | JNull => PNone
  | _ => PStr "<object>"
  end.

(** An exception as an argument of a logging call: its class, or the
    text it carries. *)
Definition exn_arg (e : exn) : pyval :=
  PStr match e with
       | SystemExit _ => "SystemExit"
       | KeyboardInterrupt => "KeyboardInterrupt"
       | KeyError _ => "KeyError"
       | TypeError => "TypeError"
       | AttributeError attr => attr
       | OSError msg => msg
       | ShutilError => "Error"
       | CalledProcessError _ output => output
       | GitlabError msg => msg
       end.

(** The number of [%s] and [%d] in a format string. *)
Fixpoint directives (fmt : string) : nat :=
  match fmt with
  | String "%" (String c rest as tail) =>
      if Ascii.eqb c "s" || Ascii.eqb c "d" then Datatypes.S (directives rest)
      else directives tail
  | String _ rest => directives rest
  | EmptyString => 0%nat
  end.

(** [logging] builds the message of a record as [fmt % args] when there
    are arguments, which works when there is a directive for each. *)
Definition formats (r : log_record) : bool :=
  match log_args r with
  | [] => true
  | _ :: _ => Nat.eqb (directives (log_fmt r)) (length (log_args r))
  end.

Definition default_repos_path : string :=
  "/var/opt/gitlab/git-data/repositories".

(** The exit status of the process for the outcome of the main program. *)
Definition exit_status {A} (r : outcome A) : Z :=
  match r with
  | Ret _ => 0
  | Raise (SystemExit (PInt n)) => n
  | Raise (SystemExit PNone) => 0
  | Raise _ => 1
  end.

Section Importer.
Context {S : Type} `{!Platform S}.

Definition getitem (conf : json) (key : string) : M S json :=
  match conf with
  | JObj fields =>
      match assoc key fields with
      | Some v => ret v
      | None => raise (KeyError (PStr key))
      end
  | _ => raise TypeError
  end.

(** [os.path.join(self.repos_dir, b)] when [repos_dir] came out of the
    configuration and need not be a string. *)
Definition join_repos_dir (a : json) (b : string) : M S string :=
  match a with
  | JStr s => ret (Py.os_path_join s b)
  | _ => if Py.startswith b "/" then ret b
         else raise (AttributeError "endswith")
  end.

Definition check_output (cmd : list string) : M S string :=
  ext (CCheckOutput cmd) (subprocess_check_output cmd).

Definition chown (path : string) (uid gid : Z) : M S unit :=
  ext (CChown path uid gid) (os_chown path uid gid).

Definition copytree (src dst : string)
    (ignore : string -> list string -> M S (list string)) : M S unit :=
  fun w =>
    shutil_copytree src dst ignore
      (mkWorld (os w) (log w) (CCopytree src dst :: trace w)
               (refs_remotes_path w)).

(** *** [_get_config] (lines 322-362) *)
Definition _get_config (gitlab_ctl_path : string) : M S (json * json * json) :=
  let user := JStr "git" in
  let group := JStr "git" in
  let cmd := [gitlab_ctl_path; "show-config"] in
  logger INFO "Running %s to get gitlab configuration"
         [PStr (String.concat " " cmd)] ;;;
  res <- check_output cmd ;;
  logger DEBUG "gitlab-ctl done" [] ;;;
  conf <- match json_loads res with
          | Some conf => ret conf
          | None =>
              logger ERROR "Unable to read JSON output from %s"
                     [PStr (String.concat " " cmd)] ;;;
              raise (SystemExit (PInt 1))
          end ;;
  path <- try_except
            (g <- getitem conf "gitlab" ;;
             r <- getitem g "gitlab-rails" ;;
             path <- getitem r "gitlab_shell_repos_path" ;;
             logger INFO "Found repos path from config as: %s"
                    [json_arg path] ;;;
             ret path)
            is_KeyError
            (fun _ =>
               let path := JStr default_repos_path in
               logger WARNING
                 "Could not find gitlab_shell_repos_path in config, using default of: %s"
                 [json_arg path] ;;;
               ret path) ;;
  user <- try_except
            (g <- getitem conf "gitlab" ;;
             u <- getitem g "user" ;;
             user <- getitem u "username" ;;
             logger INFO "Found gitlab username from config as: %s"
                    [json_arg user] ;;;
             ret user)
            is_KeyError
            (fun _ =>
               logger WARNING
                 "Could not find gitlab username in config, using default of: %s"
                 [json_arg user] ;;;
               ret user) ;;
  group <- try_except
             (g <- getitem conf "gitlab" ;;
              u <- getitem g "user" ;;
              group <- getitem u "group" ;;
              logger INFO "Found gitlab group from config as: %s"
                     [json_arg group] ;;;
              ret group)
             is_KeyError
             (fun _ =>
                logger WARNING
                  "Could not find gitlab group in config, using default of: %s"
                  [json_arg group] ;;;
                ret group) ;;
  ret (user, group, path).

(** *** [__init__] (lines 114-144) *)
Definition __init__ (url apikey gitlab_ctl_path : string)
    (repos_dir_arg : option string)
    (remove_on_fail ignore_broken_links ignore_refs_remotes : bool)
    : M S Importer :=
  logger DEBUG "Connecting to GitLab" [] ;;;
  username <- ext (CAuth url apikey) (gitlab_auth url apikey) ;;
  logger INFO "Connected to GitLab as %s" [PStr username] ;;;
  cfg <- _get_config gitlab_ctl_path ;;
  let '(git_user, git_group, repos_dir) := cfg in
  uid <- (o <- ask (pwd_getpwnam_uid git_user) ;;
          match o with
          | Some uid => ret uid
          | None =>
              raise (SystemExit (PStr
                "Could not find uid for user '%s'; this script currently only supports a local gitlab user."))
          end) ;;
  gid <- (o <- ask (grp_getgrnam_gid git_group) ;;
          match o with
          | Some gid => ret gid
          | None =>
              raise (SystemExit (PStr
                "Could not find gid for group '%s'; this script currently only supports a local gitlab group."))
          end) ;;
  logger INFO "Git repo ownership: %s:%s (%d:%d)"
         [json_arg git_user; json_arg git_group; PInt uid; PInt gid] ;;;
  ret (mkImporter remove_on_fail ignore_broken_links ignore_refs_remotes
         uid gid
         (match repos_dir_arg with
          | Some d => JStr d
          | None => repos_dir
          end)).

End Importer.

Section Repo.
Context {S : Type} `{!Platform S}.

(** *** [ignore_files_callback] (lines 176-187) *)

(** The body of [for item in items]; [skip] is the list built so far. *)
Definition ignore_item (self : Importer) (dirname item : string)
    (skip : list string) : M S (list string) :=
  let path := Py.os_path_join dirname item in
  broken <- (if ignore_broken_links self
             then e <- ask (os_path_exists path) ;; ret (negb e)
             else ret false) ;;
  if broken then
    logger WARNING "Skipping broken link: %s" [PStr path] ;;;
    ret (skip ++ [item])%list
  else
    under <- (if ignore_refs_remotes self
              then rr <- get_refs_remotes_path ;;
                   ret (Py.startswith path rr)
              else ret false) ;;
    if under then
      logger WARNING "Skipping refs/remotes path: %s" [PStr path] ;;;
      ret (skip ++ [item])%list
    else ret skip.

Definition ignore_files_callback (self : Importer) (dirname : string)
    (items : list string) : M S (list string) :=
  for_fold items (ignore_item self dirname) [].

(** *** [get_gitlab_project] (lines 251-256) *)
Definition get_gitlab_project (namespace project_name : string)
    : M S (option Project) :=
  ps <- ext CAllProjects all_projects ;;
  ret (List.find
         (fun p => String.eqb (name p) project_name
                   && String.eqb (namespace_name p) namespace)
         ps).

(** *** [import_repo] (lines 258-273) *)
Definition import_cmd : list string :=
  ["gitlab-rake"; "-v"; "gitlab:import:repos"; "RAILS_ENV=production"].

Definition import_repo : M S bool :=
  r <- try_except
         (logger INFO "Running: %s" [PStr (String.concat " " import_cmd)] ;;;
          res <- check_output import_cmd ;;
          ret (Some res))
         is_CalledProcessError
         (fun ex =>
            logger ERROR ("Import failed (exit %d):" +:+ Py.newline +:+ "%s")
                   match ex with
                   | CalledProcessError rc out => [PInt rc; PStr out]
                   | _ => []
                   end ;;;
            ret None) ;;
  match r with
  | None => ret false
  | Some res =>
      logger DEBUG ("Imported repo:" +:+ Py.newline +:+ "%s") [PStr res] ;;;
      ret true
  end.

(** *** [update_project_settings] (lines 275-320) *)

Definition getattr (project : Project) (attr : string) : M S pyval :=
  match attrs project !! attr with
  | Some v => ret v
  | None => raise (AttributeError attr)
  end.

Definition setattr (project : Project) (attr : string) (v : pyval) : Project :=
  mkProject (name project) (namespace_name project)
            (path_with_namespace project) (<[attr := v]> (attrs project)).

(** [VISIBILITY_LEVELS[value]]: the keys are three strings. *)
Definition visibility_level_of (value : pyval) : M S pyval :=
  match value with
  | PStr s =>
      match VISIBILITY_LEVELS !! s with
      | Some n => ret (PInt n)
      | None => raise (KeyError value)
      end
  | _ => raise (KeyError value)
  end.

(** The body of [for setting, value in project_settings.items()] (lines
    290-310), on the project object and the [changes] flag. *)
Definition stage_setting (sv : string * pyval) (st : Project * bool)
    : M S (Project * bool) :=
  let '(setting, value) := sv in
  let '(project, changes) := st in
  if String.eqb setting "visibility" then
    current <- getattr project "visibility_level" ;;
    value <- visibility_level_of value ;;
    if py_eq current value then
      logger DEBUG "visibility already at desired value: %s" [value] ;;;
      ret (project, changes)
    else
      logger DEBUG "Setting visibility_level to %s (current=%s)"
             [value; current] ;;;
      ret (setattr project "visibility_level" value, true)
  else
    match BOOLEAN_SETTING_NAMES !! setting with
    | Some attr_name =>
        if negb (is_None value) then
          current <- getattr project attr_name ;;
          if py_eq current value then
            logger DEBUG "%s already at desired value: %s"
                   [PStr setting; value] ;;;
            ret (project, changes)
          else
            logger DEBUG "Setting %s to %s (current=%s)"
                   [PStr setting; value; current] ;;;
            ret (setattr project attr_name value, true)
        else ret (project, changes)
    | None => ret (project, changes)
    end.

(** Lines 311-320: one remote write when something was staged. *)
Definition save_changes (project : Project) (changes : bool) : M S unit :=
  if negb changes then
    logger INFO "No changes to project settings." []
  else
    logger DEBUG "Saving project" [] ;;;
    saved <- try_except
               (ext (CSave project) (project_save project) ;;; ret true)
               is_Exception
               (fun ex =>
                  logger EXCEPTION "Saving project failed: " [exn_arg ex] ;;;
                  ret false) ;;
    if saved then
      logger INFO "Settings updated for project %s"
             [PStr (path_with_namespace project)]
    else ret tt.

(** The project object is changed in place by the script; here the
    changed object is the result. *)
Definition update_project_settings (project_settings : list (string * pyval))
    (project : Project) : M S Project :=
  logger INFO "Updating project settings on %s"
         [PStr (path_with_namespace project)] ;;;
  st <- for_fold project_settings stage_setting (project, false) ;;
  save_changes (fst st) (snd st) ;;;
  ret (fst st).

(** *** [do_repo] (lines 189-249) *)

(** Lines 205-217: the copy and the change of owner. *)
Definition copy_and_chown (self : Importer) (repo_path dest_path : string)
    : M S unit :=
  set_refs_remotes_path
    (Py.os_path_join (Py.os_path_join repo_path "refs") "remotes") ;;;
  copytree repo_path dest_path (ignore_files_callback self) ;;;
  logger DEBUG "Done copying" [] ;;;
  logger INFO "Recursively setting ownership on %s to %d:%d"
         [PStr dest_path; PInt (git_uid self); PInt (git_gid self)] ;;;
  chown dest_path (git_uid self) (git_gid self) ;;;
  tree <- ask (os_walk dest_path) ;;
  for_each tree
    (fun '(root, dirs, files) =>
       for_each dirs
         (fun momo =>
            chown (Py.os_path_join root momo) (git_uid self) (git_gid self)) ;;;
       for_each files
         (fun momo =>
            chown (Py.os_path_join root momo) (git_uid self) (git_gid self))) ;;;
  logger DEBUG "Done chown'ing" [].

(** Lines 219-226: the body of [if migrate_hooks]. *)
Definition move_hooks (dest_path : string) : M S unit :=
  let hook_dir := Py.os_path_join dest_path "hooks" in
  let new_dir := Py.os_path_join dest_path "custom_hooks" in
  e <- ask (os_path_exists hook_dir) ;;
  if e then
    logger INFO "Migrating hooks - moving %s to %s"
           [PStr hook_dir; PStr new_dir] ;;;
    ext (CMove hook_dir new_dir) (shutil_move hook_dir new_dir) ;;;
    logger DEBUG "Done migrating hooks" []
  else ret tt.

(** Lines 204-226: the body of [try]. *)
Definition copy_block (self : Importer) (repo_path dest_path : string)
    (migrate_hooks : bool) : M S unit :=
  copy_and_chown self repo_path dest_path ;;;
  if migrate_hooks then move_hooks dest_path else ret tt.

(** Lines 228-231: the handler, up to its [return]. *)
Definition copy_failed (self : Importer) (dest_path : string) : M S unit :=
  logger EXCEPTION "Exception when copying repo" [] ;;;
  e <- (if remove_on_fail self then ask (os_path_exists dest_path)
        else ret false) ;;
  if e then
    logger WARNING "Removing %s" [PStr dest_path] ;;;
    ext (CRmtree dest_path) (shutil_rmtree dest_path)
  else ret tt.

(** Lines 233-247: the import command and the lookup of the project it
    made; [None] stands for the two [return False] on the way. *)
Definition imported_project (group_name project_name : string)
    : M S (option Project) :=
  imported <- import_repo ;;
  if negb imported then ret None
  else
    proj <- get_gitlab_project group_name project_name ;;
    match proj with
    | None =>
        logger ERROR
          "Error: import command exited successfully, but could not find project %s/%s via API."
          [PStr group_name; PStr project_name] ;;;
        ret None
    | Some proj =>
        commits <- ext (CCommit (path_with_namespace proj))
                       (project_Commit proj) ;;
        (if (length commits <? 1)%nat then
           logger WARNING "Warning: project %s created, but has no commits."
                  [PStr (path_with_namespace proj)]
         else
           logger INFO "Created project with at least %d commits"
                  [PInt (Z.of_nat (length commits))]) ;;;
        ret (Some proj)
    end.

(** Lines 233-249: what follows the copy. *)
Definition after_copy (group_name project_name : string)
    (project_settings : list (string * pyval)) : M S pyval :=
  proj <- imported_project group_name project_name ;;
  match proj with
  | None => ret (PBool false)
  | Some proj =>
      update_project_settings project_settings proj ;;;
      ret (PBool true)
  end.

(** The result is [True], [False], or [None] from the bare [return] of
    the handler. *)
Definition do_repo (self : Importer) (create_path repo_path group_name : string)
    (project_settings : list (string * pyval)) (migrate_hooks : bool)
    : M S pyval :=
  let project_name := project_name_of repo_path in
  let dest_path := dest_path_of create_path repo_path in
  e <- ask (os_path_exists dest_path) ;;
  if e then
    logger ERROR "Error: path already exists: %s" [PStr dest_path] ;;;
    ret (PBool false)
  else
    logger INFO "Copying %s to %s" [PStr repo_path; PStr dest_path] ;;;
    copied <- try_except
                (copy_block self repo_path dest_path migrate_hooks ;;;
                 ret true)
                is_Exception
                (fun ex => copy_failed self dest_path ;;; ret false) ;;
    if copied then after_copy group_name project_name project_settings
    else ret PNone.

(** *** [run] (lines 146-174) *)

(** The body of [for repo in repo_paths], on [(failed, succeeded)]. *)
Definition run_step (self : Importer) (create_path group_name : string)
    (project_settings : list (string * pyval)) (migrate_hooks : bool)
    (repo : string) (st : nat * nat) : M S (nat * nat) :=
  let '(failed, succeeded) := st in
  e <- ask (os_path_exists repo) ;;
  if negb e then
    logger ERROR "Error: repo path does not exist: %s" [PStr repo] ;;;
    ret (failed, succeeded)
  else
    r <- do_repo self create_path repo group_name project_settings
                 migrate_hooks ;;
    if truthy r then ret (failed, Datatypes.S succeeded)
    else ret (Datatypes.S failed, succeeded).

Definition run_loop (self : Importer) (create_path group_name : string)
    (project_settings : list (string * pyval)) (migrate_hooks : bool)
    (repo_paths : list string) (st : nat * nat) : M S (nat * nat) :=
  for_fold repo_paths
    (run_step self create_path group_name project_settings migrate_hooks) st.

(** Lines 171-174: the tally and the exit. *)
Definition run_finish (st : nat * nat) : M S unit :=
  let '(failed, succeeded) := st in
  logger INFO "Done with all repos; imported %d, %d failed."
         [PInt (Z.of_nat succeeded); PInt (Z.of_nat failed)] ;;;
  if (0 <? failed)%nat then raise (SystemExit (PInt 1)) else ret tt.

Definition run (self : Importer) (group_name : string)
    (repo_paths : list string) (project_settings : list (string * pyval))
    (migrate_hooks : bool) : M S unit :=
  logger INFO "Importing repos under group '%s'" [PStr group_name] ;;;
  create_path <- join_repos_dir (repos_dir self) group_name ;;
  e <- ask (os_path_exists create_path) ;;
  if negb e then
    logger ERROR "Error: group does not yet exist (path %s does not exist"
           [PStr create_path] ;;;
    raise (SystemExit (PInt 1))
  else
    st <- run_loop self create_path group_name project_settings migrate_hooks
                   repo_paths (0%nat, 0%nat) ;;
    run_finish st.

(** The log record of a failed import. *)
Definition import_error_record (e : exn) : log_record :=
  Log ERROR ("Import failed (exit %d):" +:+ Py.newline +:+ "%s")
      match e with
      | CalledProcessError rc out => [PInt rc; PStr out]
      | _ => []
      end.

(** The test of [get_gitlab_project]: name and namespace both match. *)
Definition is_project (namespace project_name : string) (p : Project) : Prop :=
  name p = project_name /\ namespace_name p = namespace.

(** Lines 211-216 on their own: the destination, and then every
    directory and file that [os.walk] lists under it, is handed to the
    git user. *)
Definition chown_tree (self : Importer) (dest_path : string) : M S unit :=
  chown dest_path (git_uid self) (git_gid self) ;;;
  tree <- ask (os_walk dest_path) ;;
  for_each tree
    (fun '(root, dirs, files) =>
       for_each dirs
         (fun momo =>
            chown (Py.os_path_join root momo) (git_uid self) (git_gid self)) ;;;
       for_each files
         (fun momo =>
            chown (Py.os_path_join root momo) (git_uid self) (git_gid self))).

(** Lines 207-217: what follows [shutil.copytree] in the copy. *)
Definition finish_copy (self : Importer) (dest_path : string) : M S unit :=
  logger DEBUG "Done copying" [] ;;;
  logger INFO "Recursively setting ownership on %s to %d:%d"
         [PStr dest_path; PInt (git_uid self); PInt (git_gid self)] ;;;
  chown_tree self dest_path ;;;
  logger DEBUG "Done chown'ing" [].

(** The world after one more record has been logged. *)
Definition logged (r : log_record) (w : World S) : World S :=
  mkWorld (os w) (r :: log w) (trace w) (refs_remotes_path w).

(** Worlds that differ in the log alone. *)
Definition same_outside (w w' : World S) : Prop :=
  os w' = os w /\ trace w' = trace w /\
  refs_remotes_path w' = refs_remotes_path w.

(** The two tests of lines 180-184 as one, with [rr] for
    [self.refs_remotes_path]. *)
Definition skips (self : Importer) (rr : string) (s : S)
    (dirname item : string) : bool :=
  let path := Py.os_path_join dirname item in
  (ignore_broken_links self && negb (os_path_exists path s))
  || (ignore_refs_remotes self && Py.startswith path rr).

(** How many of [repo_paths] exist at the moment the loop tests them.
    The world moves on with every iteration, so the count follows the
    loop from world to world. *)
Fixpoint checked_existing (self : Importer) (create_path group_name : string)
    (project_settings : list (string * pyval)) (migrate_hooks : bool)
    (repo_paths : list string) (w : World S) : nat :=
  match repo_paths with
  | [] => 0
  | repo :: rest =>
      ((if os_path_exists repo (os w) then 1 else 0) +
       checked_existing self create_path group_name project_settings
         migrate_hooks rest
         (snd (run_step self create_path group_name project_settings
                        migrate_hooks repo (0, 0) w)))%nat
  end.

(** *** The main program (lines 447-460) *)
Definition main (url apikey gitlab_ctl : string) (repos_dir_arg : option string)
    (remove_on_fail ignore_broken_links ignore_refs_remotes : bool)
    (group : string) (repo_path : list string) (args : Args)
    (migrate_hooks : bool) : M S unit :=
  syncer <- __init__ url apikey gitlab_ctl repos_dir_arg remove_on_fail
                     ignore_broken_links ignore_refs_remotes ;;
  run syncer group repo_path (settings_of_args args) migrate_hooks.

End Repo.

(** ** A small executable platform *)

(** A flat file system (path to kind), tables for the external commands
    and the account databases, and a list of projects on the server.
    It is the instance the examples run on; the theorems below hold for
    every [Platform]. *)
Module Sim.

Inductive kind := KFile | KDir | KBroken.

Record state := mkState {
  entries : list (string * kind);
  commands : list (list string * (Z * string));
  users : list (string * Z);
  groups : list (string * Z);
  projects : list Project;
  commits : list string;
  save_error : option exn
}.

Fixpoint lookup_path (p : string) (es : list (string * kind)) : option kind :=
  match es with
  | [] => None
  | (k, v) :: rest => if String.eqb k p then Some v else lookup_path p rest
  end.

(** A dangling link is listed in its directory but does not exist. *)
Definition exists_path (p : string) (s : state) : bool :=
  match lookup_path p (entries s) with
  | Some KFile | Some KDir => true
  | _ => false
  end.

Fixpoint drop_prefix (pre s : string) : option string :=
  match pre, s with
  | EmptyString, _ => Some s
  | String a pre', String b s' =>
      if Ascii.eqb a b then drop_prefix pre' s' else None
  | _, _ => None
  end.

(** [k] as a direct child of directory [d]. *)
Definition child (d k : string) : option string :=
  match drop_prefix (d +:+ "/") k with
  | Some n => if String.eqb n "" || Py.has_slash n then None else Some n
  | None => None
  end.

Definition inside (d k : string) : bool :=
  String.eqb k d || Py.startswith k (d +:+ "/").

Definition listdir (d : string) (s : state) : list string :=
  omap (fun e => child d (fst e)) (entries s).

Definition children (d : string) (want_dirs : bool) (s : state) : list string :=
  omap (fun e =>
          match child d (fst e), snd e with
          | Some n, KDir => if want_dirs then Some n else None
          | Some n, _ => if want_dirs then None else Some n
          | None, _ => None
          end)
       (entries s).

Definition walk (top : string) (s : state)
    : list (string * list string * list string) :=
  omap (fun e =>
          match snd e with
          | KDir => if inside top (fst e)
                    then Some (fst e, children (fst e) true s,
                               children (fst e) false s)
                    else None
          | _ => None
          end)
       (entries s).

Definition with_entries (es : list (string * kind)) (s : state) : state :=
  mkState es (commands s) (users s) (groups s) (projects s) (commits s)
          (save_error s).

Definition add_entry (p : string) (k : kind) : M state unit :=
  fun w =>
    (Ret tt, mkWorld (with_entries (entries (os w) ++ [(p, k)]) (os w))
                     (log w) (trace w) (refs_remotes_path w)).

Definition sim_chown (p : string) (uid gid : Z) (s : state)
    : outcome unit * state :=
  match lookup_path p (entries s) with
  | Some _ => (Ret tt, s)
  | None => (Raise (OSError "No such file or directory"), s)
  end.

(** [shutil.copytree(src, dst, ignore=...)] with [symlinks=False]: the
    names of [src] are shown to [ignore], [dst] is made, and the names
    that are left are copied; errors on single names are collected and
    raised at the end. *)
Fixpoint sim_copytree (fuel : nat) (src dst : string)
    (ignore : string -> list string -> M state (list string)) : M state unit :=
  match fuel with
  | O => raise (OSError "Too many levels")
  | Datatypes.S fuel' =>
      k <- ask (fun s => lookup_path src (entries s)) ;;
      match k with
      | Some KDir =>
          names <- ask (listdir src) ;;
          ignored <- ignore src names ;;
          taken <- ask (fun s => lookup_path dst (entries s)) ;;
          match taken with
          | Some _ => raise (OSError "File exists")
          | None =>
              add_entry dst KDir ;;;
              errors <-
                for_fold names
                  (fun nm errors =>
                     if existsb (String.eqb nm) ignored then ret errors
                     else
                       let srcname := Py.os_path_join src nm in
                       let dstname := Py.os_path_join dst nm in
                       k <- ask (fun s => lookup_path srcname (entries s)) ;;
                       match k with
                       | Some KDir =>
                           try_except
                             (sim_copytree fuel' srcname dstname ignore ;;;
                              ret errors)
                             is_Exception
                             (fun _ => ret true)
                       | Some KFile => add_entry dstname KFile ;;; ret errors
                       | _ => ret true
                       end)
                  false ;;
              if errors then raise ShutilError else ret tt
          end
      | _ => raise (OSError "Not a directory")
      end
  end.

Definition rename_under (src dst : string) (e : string * kind)
    : string * kind :=
  if String.eqb (fst e) src then (dst, snd e)
  else match drop_prefix (src +:+ "/") (fst e) with
       | Some rest => (dst +:+ "/" +:+ rest, snd e)
       | None => e
       end.

(** [shutil.move]: into [dst] when [dst] is a directory, else a rename. *)
Definition sim_move (src dst : string) (s : state) : outcome unit * state :=
  match lookup_path src (entries s) with
  | None => (Raise (OSError "No such file or directory"), s)
  | Some _ =>
      let real_dst :=
        match lookup_path dst (entries s) with
        | Some KDir => Py.os_path_join dst (Py.os_path_basename src)
        | _ => dst
        end in
      match lookup_path real_dst (entries s) with
      | Some _ => (Raise ShutilError, s)
      | None =>
          (Ret tt, with_entries (map (rename_under src real_dst) (entries s)) s)
      end
  end.

Definition sim_rmtree (p : string) (s : state) : outcome unit * state :=
  match lookup_path p (entries s) with
  | Some KDir =>
      (Ret tt,
       with_entries (filter (fun e => negb (inside p (fst e))) (entries s)) s)
  | _ => (Raise (OSError "Not a directory"), s)
  end.

Fixpoint lookup_cmd (cmd : list string)
    (t : list (list string * (Z * string))) : option (Z * string) :=
  match t with
  | [] => None
  | (c, r) :: rest =>
      if bool_decide (c = cmd) then Some r else lookup_cmd cmd rest
  end.

(** [subprocess.check_output]: the output when the exit status is zero. *)
Definition sim_check_output (cmd : list string) (s : state)
    : outcome string * state :=
  match lookup_cmd cmd (commands s) with
  | Some (0, out) => (Ret out, s)
  | Some (rc, out) => (Raise (CalledProcessError rc out), s)
  | None => (Raise (OSError "No such file or directory"), s)
  end.

Fixpoint lookup_id (n : string) (t : list (string * Z)) : option Z :=
  match t with
  | [] => None
  | (k, v) :: rest => if String.eqb k n then Some v else lookup_id n rest
  end.

Definition getpwnam_uid (u : json) (s : state) : option Z :=
  match u with JStr n => lookup_id n (users s) | _ => None end.

Definition getgrnam_gid (g : json) (s : state) : option Z :=
  match g with JStr n => lookup_id n (groups s) | _ => None end.

Definition sim_save (p : Project) (s : state) : outcome unit * state :=
  match save_error s with
  | Some e => (Raise e, s)
  | None =>
      (Ret tt,
       mkState (entries s) (commands s) (users s) (groups s)
         (map (fun q =>
                 if String.eqb (path_with_namespace q) (path_with_namespace p)
                 then p else q)
              (projects s))
         (commits s) None)
  end.

(** The configuration documents the examples use; every other text is
    rejected. *)
Definition full_config : json :=
  JObj [("gitlab",
         JObj [("gitlab-rails",
                JObj [("gitlab_shell_repos_path", JStr "/srv/repositories")]);
               ("user",
                JObj [("username", JStr "gitlab"); ("group", JStr "gitlab")])])].

Definition quoted (s : string) : string :=
  String (ascii_of_nat 34) s +:+ String (ascii_of_nat 34) "".

Definition full_config_text : string :=
  "{" +:+ quoted "gitlab" +:+ ": {" +:+ quoted "gitlab-rails" +:+ ": {"
  +:+ quoted "gitlab_shell_repos_path" +:+ ": "
  +:+ quoted "/srv/repositories" +:+ "}, " +:+ quoted "user" +:+ ": {"
  +:+ quoted "username" +:+ ": " +:+ quoted "gitlab" +:+ ", "
  +:+ quoted "group" +:+ ": " +:+ quoted "gitlab" +:+ "}}}".

Definition loads (text : string) : option json :=
  if String.eqb text "{}" then Some (JObj [])
  else if String.eqb text "[]" then Some (JArr [])
  else if String.eqb text full_config_text then Some full_config
  else None.

#[global] Instance platform : Platform state := {
  os_path_exists := exists_path;
  os_walk := walk;
  os_chown := sim_chown;
  shutil_copytree src dst ignore :=
    fun w => sim_copytree (Datatypes.S (length (entries (os w)))) src dst
                          ignore w;
  shutil_move := sim_move;
  shutil_rmtree := sim_rmtree;
  subprocess_check_output := sim_check_output;
  json_loads := loads;
  pwd_getpwnam_uid := getpwnam_uid;
  grp_getgrnam_gid := getgrnam_gid;
  gitlab_auth := fun _ _ s => (Ret "root", s);
  all_projects := fun s => (Ret (projects s), s);
  project_Commit := fun _ s => (Ret (commits s), s);
  project_save := sim_save
}.

Definition world (s : state) : World state := mkWorld s [] [] None.

End Sim.

(** ** Paths under a directory, and documents of the expected shape *)

(** [path] lies under [root]: it is [root], or goes on after [root] and
    a slash. *)
Definition lies_under (root path : string) : bool :=
  String.eqb path root || Py.startswith path (root +:+ "/").

Definition member (key : string) (j : json) : option json :=
  match j with
  | JObj fields => assoc key fields
  | _ => None
  end.

(** The value at the end of a path of keys, when every key is there. *)
Fixpoint dig (conf : json) (path : list string) : option json :=
  match path with
  | [] => Some conf
  | key :: rest =>
      match member key conf with
      | Some j => dig j rest
      | None => None
      end
  end.

Definition object_or_absent (o : option json) : bool :=
  match o with
  | None | Some (JObj _) => true
  | Some _ => false
  end.

(** The document is an object, and so are its members [gitlab],
    [gitlab-rails] and [user] where they are present. *)
Definition well_shaped (conf : json) : bool :=
  match conf with
  | JObj _ =>
      object_or_absent (dig conf ["gitlab"])
      && object_or_absent (dig conf ["gitlab"; "gitlab-rails"])
      && object_or_absent (dig conf ["gitlab"; "user"])
  | _ => false
  end.

(** What configuration discovery is documented to give, from the
    decoder and the result of the command: the command's failure, a fatal
    exit for text that is not JSON, and for a document of the expected
    shape the user, group and storage path, each from the document or
    else the default.  Other documents are left open. *)
Definition documented_config (loads : string -> option json)
    (r : outcome string) : option (outcome (json * json * json)) :=
  match r with
  | Raise e => Some (Raise e)
  | Ret text =>
      match loads text with
      | None => Some (Raise (SystemExit (PInt 1)))
      | Some conf =>
          if well_shaped conf then
            Some (Ret
              (default (JStr "git") (dig conf ["gitlab"; "user"; "username"]),
               default (JStr "git") (dig conf ["gitlab"; "user"; "group"]),
               default (JStr default_repos_path)
                 (dig conf ["gitlab"; "gitlab-rails";
                            "gitlab_shell_repos_path"])))
          else None
      end
  end.

(** ** What a setting asks for *)

(** The attribute and the value that a setting of the mapping asks for:
    a visibility name asks for its level in [visibility_level], a
    recognised flag with a value other than [None] asks for that value in
    its [*_enabled] attribute, and every other entry asks for nothing. *)
Definition wanted (sv : string * pyval) : option (string * pyval) :=
  let '(setting, value) := sv in
  if String.eqb setting "visibility" then
    match value with
    | PStr s => (fun n => ("visibility_level", PInt n)) <$> VISIBILITY_LEVELS !! s
    | _ => None
    end
  else
    match BOOLEAN_SETTING_NAMES !! setting with
    | Some attr_name => if is_None value then None else Some (attr_name, value)
    | None => None
    end.

(** The project already has what is asked for. *)
Definition has_value (project : Project) (ax : string * pyval) : Prop :=
  exists y, attrs project !! fst ax = Some y /\ py_eq y (snd ax) = true.

(** An entry that the staging loop can get past: for [visibility], a
    value that is one of the three names. *)
Definition stageable (sv : string * pyval) : Prop :=
  fst sv = "visibility" -> wanted sv <> None.

(** ** Worlds for the examples *)

Module Demo.

Definition project : Project :=
  mkProject "foo" "eng" "eng/foo"
    {[ "visibility_level" := PInt 0; "issues_enabled" := PBool true;
       "wiki_enabled" := PBool true ]}.

Definition ctl_cmd : list string := ["/bin/gitlab-ctl"; "show-config"].

(** A server with group [eng], and a bare repo [/data/repos/foo.git] with
    a hooks directory, remote refs and a dangling link. *)
Definition files : list (string * Sim.kind) :=
  [("/srv/repositories", Sim.KDir);
   ("/srv/repositories/eng", Sim.KDir);
   ("/data/repos/foo.git", Sim.KDir);
   ("/data/repos/foo.git/HEAD", Sim.KFile);
   ("/data/repos/foo.git/hooks", Sim.KDir);
   ("/data/repos/foo.git/hooks/update", Sim.KFile);
   ("/data/repos/foo.git/refs", Sim.KDir);
   ("/data/repos/foo.git/refs/heads", Sim.KDir);
   ("/data/repos/foo.git/refs/remotes", Sim.KDir);
   ("/data/repos/foo.git/refs/remotes/origin", Sim.KFile);
   ("/data/repos/foo.git/refs/remotes-old", Sim.KDir);
   ("/data/repos/foo.git/dangling", Sim.KBroken);
   ("/data/repos/bare", Sim.KDir);
   ("/data/repos/bare/HEAD", Sim.KFile)].

Definition server (ctl : Z * string) (save_error : option exn) : Sim.state :=
  Sim.mkState files
    [(ctl_cmd, ctl); (import_cmd, (0, "done"))]
    [("gitlab", 998)] [("gitlab", 997)]
    [project; mkProject "bare" "eng" "eng/bare" (attrs project)]
    ["c1"] save_error.

Definition healthy : Sim.state := server (0, Sim.full_config_text) None.

(** The same server when the remote write is refused. *)
Definition save_refused : Sim.state :=
  server (0, Sim.full_config_text) (Some (GitlabError "403 Forbidden")).

(** The same server with [foo.git] already in the group's directory. *)
Definition collision : Sim.state :=
  Sim.with_entries (files ++ [("/srv/repositories/eng/foo.git", Sim.KDir)])
                   healthy.

Definition importer (broken_links refs_remotes : bool) : Importer :=
  mkImporter false broken_links refs_remotes 998 997
             (JStr "/srv/repositories").

Definition args (visibility : option string) : Args :=
  mkArgs visibility (fun _ => false) (fun n => String.eqb n "issues").

End Demo.

(** The platform of the examples with a user who interrupts every copy. *)
Module Interrupt.

Definition platform : Platform Sim.state := {|
  os_path_exists := Sim.exists_path;
  os_walk := Sim.walk;
  os_chown := Sim.sim_chown;
  shutil_copytree := fun _ _ _ => raise KeyboardInterrupt;
  shutil_move := Sim.sim_move;
  shutil_rmtree := Sim.sim_rmtree;
  subprocess_check_output := Sim.sim_check_output;
  json_loads := Sim.loads;
  pwd_getpwnam_uid := Sim.getpwnam_uid;
  grp_getgrnam_gid := Sim.getgrnam_gid;
  gitlab_auth := fun _ _ s => (Ret "root", s);
  all_projects := fun s => (Ret (Sim.projects s), s);
  project_Commit := fun _ s => (Ret (Sim.commits s), s);
  project_save := Sim.sim_save
|}.

End Interrupt.

(** Servers on which the import goes wrong. *)
Module Faults.

Definition server (rake : list (list string * (Z * string)))
    (listed : list Project) : Sim.state :=
  Sim.mkState Demo.files
    ((Demo.ctl_cmd, (0, Sim.full_config_text)) :: rake)
    [("gitlab", 998)] [("gitlab", 997)] listed ["c1"] None.

(** [gitlab-rake] exits with status 1. *)
Definition rake_fails : Sim.state :=
  server [(import_cmd, (1, "rake aborted!"))] [Demo.project].

(** [gitlab-rake] is not installed. *)
Definition rake_missing : Sim.state := server [] [Demo.project].

(** The import leaves no project behind. *)
Definition nothing_listed : Sim.state :=
  server [(import_cmd, (0, "done"))]
         [mkProject "foo" "ops" "ops/foo" (attrs Demo.project)].

End Faults.

(** * Properties *)

(** ** Strings *)

Lemma app_cons (c : ascii) (s t : string) :
  String c s +:+ t = String c (s +:+ t).
Proof. reflexivity. Qed.

Lemma app_empty_l (t : string) : "" +:+ t = t.
Proof. reflexivity. Qed.

Lemma length_app (s t : string) :
  String.length (s +:+ t) = (String.length s + String.length t)%nat.
Proof.
  induction s as [|c s IH]; [reflexivity|].
  rewrite app_cons. simpl. now rewrite IH.
Qed.

Lemma string_app_assoc (a b c : string) :
  (a +:+ b) +:+ c = a +:+ b +:+ c.
Proof.
  induction a as [|x a IH]; [reflexivity|].
  rewrite !app_cons. now rewrite IH.
Qed.

Lemma endswith_unfold (s suf : string) :
  Py.endswith s suf =
  String.eqb s suf ||
  match s with
  | EmptyString => false
  | String _ r => Py.endswith r suf
  end.
Proof. destruct s; reflexivity. Qed.

Lemma endswith_split (s suf : string) :
  Py.endswith s suf = true -> exists pre, s = pre +:+ suf.
Proof.
  induction s as [|c s IH]; rewrite endswith_unfold; intros H;
    apply orb_true_iff in H as [H|H].
  - apply String.eqb_eq in H. exists "". now subst.
  - discriminate.
  - apply String.eqb_eq in H. exists "". now rewrite H.
  - destruct (IH H) as [pre ->]. now exists (String c pre).
Qed.

Lemma endswith_app (pre suf : string) : Py.endswith (pre +:+ suf) suf = true.
Proof.
  induction pre as [|c pre IH].
  - rewrite app_empty_l, endswith_unfold. now rewrite String.eqb_refl.
  - rewrite app_cons, endswith_unfold, IH. apply orb_true_r.
Qed.

(** The substitution removes the suffix it was asked to remove, and only
    that. *)
Lemma re_sub_app (pre : string) : Py.re_sub_dot_git_end (pre +:+ ".git") = pre.
Proof.
  induction pre as [|c pre IH]; [reflexivity|].
  rewrite app_cons.
  change (Py.re_sub_dot_git_end (String c (pre +:+ ".git")))
    with (if String.eqb (String c (pre +:+ ".git")) ".git" then ""
          else if String.eqb (String c (pre +:+ ".git")) (".git" +:+ Py.newline)
               then Py.newline
               else String c (Py.re_sub_dot_git_end (pre +:+ ".git"))).
  destruct (String.eqb_spec (String c (pre +:+ ".git")) ".git") as [E|_].
  { apply (f_equal String.length) in E. simpl in E.
    rewrite length_app in E. simpl in E. lia. }
  destruct (String.eqb_spec (String c (pre +:+ ".git")) (".git" +:+ Py.newline))
    as [E|_].
  { assert (L := f_equal String.length E). simpl in L.
    rewrite length_app in L. simpl in L.
    destruct pre as [|d pre]; [|simpl in L; lia].
    discriminate E. }
  now rewrite IH.
Qed.



Lemma repo_name_is_project_dot_git (repo_path : string) :
  fst (repo_names repo_path) = project_name_of repo_path +:+ ".git".
Proof.
  unfold project_name_of, repo_names.
  destruct (Py.endswith (Py.os_path_basename repo_path) ".git") eqn:E;
    [|reflexivity].
  destruct (endswith_split _ _ E) as [pre ->]. simpl.
  now rewrite re_sub_app.
Qed.

Lemma has_slash_app (s t : string) :
  Py.has_slash (s +:+ t) = Py.has_slash s || Py.has_slash t.
Proof.
  induction s as [|c s IH]; [reflexivity|].
  rewrite app_cons. simpl. rewrite IH. apply orb_assoc.
Qed.

Lemma basename_no_slash (p : string) :
  Py.has_slash (Py.os_path_basename p) = false.
Proof.
  induction p as [|c p IH]; [reflexivity|].
  simpl. destruct (Py.has_slash p) eqn:Hp; [exact IH|].
  destruct (Ascii.eqb c "/") eqn:Hc; [exact Hp|].
  simpl. now rewrite Hc, Hp.
Qed.

Lemma no_slash_not_absolute (s : string) :
  Py.has_slash s = false -> Py.startswith s "/" = false.
Proof.
  destruct s as [|c s]; [reflexivity|].
  cbn [Py.has_slash Py.startswith].
  rewrite (Ascii.eqb_sym "/" c).
  now destruct (Ascii.eqb c "/").
Qed.

Lemma endswith_slash_has_slash (s : string) :
  Py.endswith s "/" = true -> Py.has_slash s = true.
Proof.
  intros H. destruct (endswith_split _ _ H) as [pre ->].
  rewrite has_slash_app. apply orb_true_r.
Qed.

Lemma endswith_app_r (a b suf : string) :
  b <> "" -> suf <> "" ->
  Py.endswith (a +:+ b) suf = true ->
  Py.endswith b suf = true \/ (String.length b < String.length suf)%nat.
Proof.
  intros Hb Hsuf. induction a as [|c a IH]; [now left|].
  rewrite app_cons, endswith_unfold. intros H.
  apply orb_true_iff in H as [H|H]; [|auto].
  apply String.eqb_eq in H.
  destruct (le_lt_dec (String.length suf) (String.length b)) as [Hle|Hlt];
    [|now right].
  apply (f_equal String.length) in H. simpl in H.
  rewrite length_app in H. lia.
Qed.

(** With a storage directory and a group that are plain path components
    the joined destination is the text [<repos_dir>/<group>/<name>.git]. *)
Lemma dest_path_text (repos_dir group repo_path : string) :
  repos_dir <> "" ->
  Py.endswith repos_dir "/" = false ->
  group <> "" ->
  Py.has_slash group = false ->
  dest_path_of (Py.os_path_join repos_dir group) repo_path =
    repos_dir +:+ "/" +:+ group +:+ "/" +:+ project_name_of repo_path
      +:+ ".git".
Proof.
  intros Hr Hre Hg Hgs.
  unfold dest_path_of. rewrite repo_name_is_project_dot_git.
  assert (Hname : Py.has_slash (project_name_of repo_path +:+ ".git") = false).
  { rewrite <- repo_name_is_project_dot_git. unfold repo_names.
    destruct (Py.endswith _ ".git"); simpl;
      rewrite ?has_slash_app, basename_no_slash; reflexivity. }
  assert (Hcp : Py.os_path_join repos_dir group = repos_dir +:+ "/" +:+ group).
  { unfold Py.os_path_join. rewrite (no_slash_not_absolute _ Hgs), Hre.
    destruct (String.eqb_spec repos_dir ""); [contradiction|reflexivity]. }
  rewrite Hcp. unfold Py.os_path_join.
  rewrite (no_slash_not_absolute _ Hname).
  assert (Hne : String.eqb (repos_dir +:+ "/" +:+ group) "" = false).
  { apply String.eqb_neq. destruct repos_dir; [contradiction|discriminate]. }
  assert (Hend : Py.endswith (repos_dir +:+ "/" +:+ group) "/" = false).
  { destruct (Py.endswith (repos_dir +:+ "/" +:+ group) "/") eqn:E;
      [|reflexivity].
    rewrite <- string_app_assoc in E.
    apply endswith_app_r in E; [|assumption|discriminate].
    destruct E as [E|E].
    - apply endswith_slash_has_slash in E. congruence.
    - destruct group; [contradiction|simpl in E; lia]. }
  rewrite Hne, Hend. simpl.
  now rewrite !string_app_assoc.
Qed.






(** ** The monad *)

Section MonadFacts.
Context {S : Type}.

Lemma bind_Ret {A B} (m : M S A) (k : A -> M S B) w a w' :
  m w = (Ret a, w') -> bind m k w = k a w'.
Proof. unfold bind. now intros ->. Qed.

Lemma bind_Raise {A B} (m : M S A) (k : A -> M S B) w e w' :
  m w = (Raise e, w') -> bind m k w = (Raise e, w').
Proof. unfold bind. now intros ->. Qed.

Lemma try_Ret {A} (m : M S A) c h w a w' :
  m w = (Ret a, w') -> try_except m c h w = (Ret a, w').
Proof. unfold try_except. now intros ->. Qed.

Lemma try_caught {A} (m : M S A) c h w e w' :
  m w = (Raise e, w') -> c e = true -> try_except m c h w = h e w'.
Proof. unfold try_except. now intros -> ->. Qed.

Lemma try_passed {A} (m : M S A) c h w e w' :
  m w = (Raise e, w') -> c e = false ->
  try_except m c h w = (Raise e, w').
Proof. unfold try_except. now intros -> ->. Qed.

Lemma for_fold_cons {A St} (x : A) l (body : A -> St -> M S St) st :
  for_fold (x :: l) body st = (st' <- body x st ;; for_fold l body st').
Proof. reflexivity. Qed.

Lemma for_fold_app {A St} (l1 l2 : list A) (body : A -> St -> M S St) st w :
  for_fold (l1 ++ l2) body st w =
    match for_fold l1 body st w with
    | (Ret st1, w1) => for_fold l2 body st1 w1
    | (Raise e, w1) => (Raise e, w1)
    end.
Proof.
  revert st w. induction l1 as [|x l1 IH]; intros st w; [reflexivity|].
  cbn [app]. rewrite !for_fold_cons. unfold bind.
  destruct (body x st w) as [[st'|e] w']; [apply IH|reflexivity].
Qed.

End MonadFacts.

(** One step of evaluation of the plain operations of the monad. *)
Ltac mstep := cbn [bind ret raise logger ask logged fst snd].

Section RunFacts.
Context {S : Type} `{!Platform S}.
Implicit Types (self : Importer) (w : World S).

(** ** The run loop *)

Lemma run_step_missing self cp g st mh repo f s w :
  os_path_exists repo (os w) = false ->
  run_step self cp g st mh repo (f, s) w =
    (Ret (f, s),
     logged (Log ERROR "Error: repo path does not exist: %s" [PStr repo]) w).
Proof.
  intros H. unfold run_step. mstep. rewrite H. reflexivity.
Qed.

Lemma run_step_existing self cp g st mh repo f s w :
  os_path_exists repo (os w) = true ->
  run_step self cp g st mh repo (f, s) w =
    match do_repo self cp repo g st mh w with
    | (Ret r, w') =>
        (Ret (if truthy r then (f, Datatypes.S s) else (Datatypes.S f, s)), w')
    | (Raise e, w') => (Raise e, w')
    end.
Proof.
  intros H. unfold run_step. mstep. rewrite H. cbn [negb]. unfold bind.
  destruct (do_repo self cp repo g st mh w) as [[r|e] w']; [|reflexivity].
  now destruct (truthy r).
Qed.

(** The counters do not steer the loop: the world after a step is the
    same from any tally. *)
Lemma run_step_world self cp g st mh repo c c' w :
  snd (run_step self cp g st mh repo c w) =
  snd (run_step self cp g st mh repo c' w).
Proof.
  destruct c as [f s], c' as [f' s'].
  destruct (os_path_exists repo (os w)) eqn:E.
  - rewrite !run_step_existing by assumption.
    now destruct (do_repo self cp repo g st mh w) as [[r|e] w'].
  - now rewrite !run_step_missing by assumption.
Qed.

Lemma run_step_counts self cp g st mh repo f s w f' s' w' :
  run_step self cp g st mh repo (f, s) w = (Ret (f', s'), w') ->
  (f' + s' =
   f + s + if os_path_exists repo (os w) then 1 else 0)%nat.
Proof.
  destruct (os_path_exists repo (os w)) eqn:E.
  - rewrite run_step_existing by assumption.
    destruct (do_repo self cp repo g st mh w) as [[r|e] w1]; [|discriminate].
    destruct (truthy r); intros [= <- <- <-]; lia.
  - rewrite run_step_missing by assumption. intros [= <- <- <-]. lia.
Qed.

Lemma run_loop_counts self cp g st mh paths :
  forall f s w f' s' w',
  run_loop self cp g st mh paths (f, s) w = (Ret (f', s'), w') ->
  (f' + s' = f + s + checked_existing self cp g st mh paths w)%nat.
Proof.
  induction paths as [|repo rest IH]; intros f s w f' s' w' H.
  - injection H as <- <- <-. simpl. lia.
  - unfold run_loop in H. rewrite for_fold_cons in H. unfold bind in H.
    destruct (run_step self cp g st mh repo (f, s) w) as [[[f1 s1]|e] w1] eqn:E;
      [|discriminate].
    apply IH in H. apply run_step_counts in E as Hc.
    cbn [checked_existing].
    rewrite (run_step_world self cp g st mh repo (0%nat, 0%nat) (f, s) w), E.
    cbn [snd]. lia.
Qed.

End RunFacts.

(** ** Missing paths, collisions and the tally *)

Section RunClaims.
Context {S : Type} `{!Platform S}.
Implicit Types (self : Importer) (w : World S).

(** C1, amended.  In a run over any list of paths, a path that does not
    exist when the loop tests it is skipped: an error is logged for it,
    nothing is copied, imported or called for it, it is counted neither
    as imported nor as failed, and the run goes on with the remaining
    paths from the tally it had; and the run exits with a non-zero
    status if the loop ends with a repo counted as failed. *)
Theorem missing_path_skipped
    self g st mh before repo rest w cp w0 f1 s1 w1 :
  join_repos_dir (repos_dir self) g
    (logged (Log INFO "Importing repos under group '%s'" [PStr g]) w)
    = (Ret cp, w0) ->
  os_path_exists cp (os w0) = true ->
  run_loop self cp g st mh before (0, 0)%nat w0 = (Ret (f1, s1), w1) ->
  os_path_exists repo (os w1) = false ->
  let w2 :=
    logged (Log ERROR "Error: repo path does not exist: %s" [PStr repo]) w1 in
  run self g (before ++ repo :: rest) st mh w =
    match run_loop self cp g st mh rest (f1, s1) w2 with
    | (Ret tally, w3) => run_finish tally w3
    | (Raise e, w3) => (Raise e, w3)
    end /\
  forall failed succeeded w3,
    run_loop self cp g st mh rest (f1, s1) w2
      = (Ret (failed, succeeded), w3) ->
    (0 < failed)%nat ->
    fst (run self g (before ++ repo :: rest) st mh w)
      = Raise (SystemExit (PInt 1)) /\
    exit_status (fst (run self g (before ++ repo :: rest) st mh w)) <> 0.
Proof.
  intros Hj Hg Hb Hm w2.
  assert (run self g (before ++ repo :: rest) st mh w =
            match run_loop self cp g st mh rest (f1, s1) w2 with
            | (Ret tally, w3) => run_finish tally w3
            | (Raise e, w3) => (Raise e, w3)
            end) as E.
  { unfold run. unfold bind at 1. unfold logger at 1. cbv beta iota.
    fold (logged (Log INFO "Importing repos under group '%s'" [PStr g]) w).
    unfold bind at 1. rewrite Hj. unfold bind at 1, ask at 1. rewrite Hg.
    cbn [negb]. unfold bind at 1.
    unfold run_loop at 1. rewrite for_fold_app.
    fold (run_loop self cp g st mh before (0, 0)%nat w0). rewrite Hb.
    rewrite for_fold_cons.
    rewrite (bind_Ret _ _ _ _ _ (run_step_missing self cp g st mh repo f1 s1
                                   w1 Hm)).
    reflexivity. }
  split; [exact E|].
  intros failed succeeded w3 Hl Hf. rewrite E, Hl.
  unfold run_finish, bind, logger, raise.
  destruct failed as [|n]; [lia|]. cbn. split; [reflexivity|discriminate].
Qed.

(** C7.  When the destination exists before the copy, [do_repo] logs the
    error and returns [False]; the outside world and the trace of calls
    are as they were, so no copy was attempted and neither the import
    command nor the API was called. *)
Theorem existing_destination_fails self cp repo g st mh w :
  os_path_exists (dest_path_of cp repo) (os w) = true ->
  do_repo self cp repo g st mh w =
    (Ret (PBool false),
     logged (Log ERROR "Error: path already exists: %s"
                 [PStr (dest_path_of cp repo)]) w).
Proof.
  intros H. unfold do_repo. mstep. now rewrite H.
Qed.

(** C10.  When the loop of [run] comes to its end, the two counters add
    up to the number of input paths that existed when they were tested. *)
Theorem tally_counts_existing self cp g st mh paths w failed succeeded w' :
  run_loop self cp g st mh paths (0, 0)%nat w = (Ret (failed, succeeded), w') ->
  (succeeded + failed = checked_existing self cp g st mh paths w)%nat.
Proof.
  intros H. apply run_loop_counts in H. lia.
Qed.

End RunClaims.

Lemma missing_path_skipped_witness :
  fst (run (Demo.importer true true) "eng"
           (["/data/repos/foo.git"] ++ "/nope" :: ["/data/repos/foo.git"])
           [("visibility", PStr "public")] true (Sim.world Demo.healthy))
    = Raise (SystemExit (PInt 1)).
Proof.
  set (imp := Demo.importer true true).
  set (st := [("visibility", PStr "public")]).
  set (w := Sim.world Demo.healthy).
  pose (w0 := logged (Log INFO "Importing repos under group '%s'" [PStr "eng"])
                     w).
  pose (w1 := snd (run_loop imp "/srv/repositories/eng" "eng" st true
                     ["/data/repos/foo.git"] (0, 0)%nat w0)).
  pose (w2 := logged (Log ERROR "Error: repo path does not exist: %s"
                          [PStr "/nope"]) w1).
  destruct (missing_path_skipped imp "eng" st true ["/data/repos/foo.git"]
              "/nope" ["/data/repos/foo.git"] w "/srv/repositories/eng" w0
              0 1 w1) as [_ H]; [vm_compute; reflexivity..|].
  apply (H 1%nat 1%nat
           (snd (run_loop imp "/srv/repositories/eng" "eng" st true
                   ["/data/repos/foo.git"] (0, 1)%nat w2))).
  - vm_compute. reflexivity.
  - lia.
Defined.

(** C1 as claimed fails: a run whose only path is missing ends with a
    tally of no failures and with exit status 0. *)
Lemma missing_path_not_tallied :
  let r := run (Demo.importer true true) "eng" ["/nope"] [] true
               (Sim.world Demo.healthy) in
  Sim.exists_path "/nope" Demo.healthy = false /\
  fst r = Ret tt /\
  exit_status (fst r) = 0 /\
  head (log (snd r)) =
    Some (Log INFO "Done with all repos; imported %d, %d failed."
              [PInt 0; PInt 0]).
Proof. vm_compute. repeat split. Qed.

Lemma existing_destination_fails_witness :
  fst (do_repo (Demo.importer true true) "/srv/repositories/eng"
               "/data/repos/foo.git" "eng" [] true
               (Sim.world Demo.collision)) = Ret (PBool false)
  /\ trace (snd (do_repo (Demo.importer true true) "/srv/repositories/eng"
                         "/data/repos/foo.git" "eng" [] true
                         (Sim.world Demo.collision))) = [].
Proof.
  rewrite (existing_destination_fails (Demo.importer true true)
             "/srv/repositories/eng" "/data/repos/foo.git" "eng" [] true
             (Sim.world Demo.collision)).
  - split; reflexivity.
  - vm_compute. reflexivity.
Defined.

Lemma tally_counts_existing_witness :
  (1 + 1 =
   checked_existing (Demo.importer true true) "/srv/repositories/eng" "eng"
     [("visibility", PStr "public")] true
     ["/data/repos/foo.git"; "/nope"; "/data/repos/foo.git"]
     (Sim.world Demo.healthy))%nat.
Proof.
  apply (tally_counts_existing (Demo.importer true true)
           "/srv/repositories/eng" "eng" [("visibility", PStr "public")] true
           ["/data/repos/foo.git"; "/nope"; "/data/repos/foo.git"]
           (Sim.world Demo.healthy) 1 1
           (snd (run_loop (Demo.importer true true) "/srv/repositories/eng"
                   "eng" [("visibility", PStr "public")] true
                   ["/data/repos/foo.git"; "/nope"; "/data/repos/foo.git"]
                   (0, 0)%nat (Sim.world Demo.healthy)))).
  vm_compute. reflexivity.
Defined.

(** ** The end of [do_repo]: hooks and settings *)

Section RepoClaims.
Context {S : Type} `{!Platform S}.
Implicit Types (self : Importer) (w : World S).

Lemma do_repo_copied self cp repo g st mh w w1 :
  os_path_exists (dest_path_of cp repo) (os w) = false ->
  copy_block self repo (dest_path_of cp repo) mh
    (logged (Log INFO "Copying %s to %s"
                 [PStr repo; PStr (dest_path_of cp repo)]) w) = (Ret tt, w1) ->
  do_repo self cp repo g st mh w = after_copy g (project_name_of repo) st w1.
Proof.
  intros Hd Hc. unfold do_repo. mstep. rewrite Hd.
  unfold bind at 1. unfold logger at 1. fold (logged (Log INFO "Copying %s to %s"
                 [PStr repo; PStr (dest_path_of cp repo)]) w).
  unfold bind at 1.
  rewrite (try_Ret _ _ _ _ true w1); [reflexivity|].
  unfold bind. now rewrite Hc.
Qed.

(** A refused write is caught and logged, and nothing is raised. *)
Lemma save_changes_refused (project : Project) w e s' :
  project_save project (os w) = (Raise e, s') ->
  is_Exception e = true ->
  save_changes project true w =
    (Ret tt,
     mkWorld s'
       (Log EXCEPTION "Saving project failed: " [exn_arg e]
        :: Log DEBUG "Saving project" [] :: log w)
       (CSave project :: trace w) (refs_remotes_path w)).
Proof.
  intros Hs He. unfold save_changes. cbn [negb]. mstep.
  unfold bind at 1, try_except, bind, ext. cbn [os log trace refs_remotes_path].
  rewrite Hs, He. reflexivity.
Qed.

(** C3, amended.  When the import has gone through and the write of the
    staged settings is refused, the exception is caught and handed to
    [logger.exception], nothing is raised, [do_repo] still returns
    [True], and the loop counts the repo as imported and goes on with the
    remaining paths.  The logging call is the one of line 318: its
    message has no directive for the exception it is given, so the
    record is one that [logging] cannot format. *)
Theorem refused_save_counts_as_imported
    self cp repo g st mh rest f s w w1 proj w2 proj' w3 e s4 :
  os_path_exists repo (os w) = true ->
  os_path_exists (dest_path_of cp repo) (os w) = false ->
  copy_block self repo (dest_path_of cp repo) mh
    (logged (Log INFO "Copying %s to %s"
                 [PStr repo; PStr (dest_path_of cp repo)]) w) = (Ret tt, w1) ->
  imported_project g (project_name_of repo) w1 = (Ret (Some proj), w2) ->
  for_fold st stage_setting (proj, false)
    (logged (Log INFO "Updating project settings on %s"
                 [PStr (path_with_namespace proj)]) w2)
    = (Ret (proj', true), w3) ->
  project_save proj' (os w3) = (Raise e, s4) ->
  is_Exception e = true ->
  let w5 :=
    mkWorld s4
      (Log EXCEPTION "Saving project failed: " [exn_arg e]
       :: Log DEBUG "Saving project" [] :: log w3)
      (CSave proj' :: trace w3) (refs_remotes_path w3) in
  do_repo self cp repo g st mh w = (Ret (PBool true), w5) /\
  run_loop self cp g st mh (repo :: rest) (f, s) w =
    run_loop self cp g st mh rest (f, Datatypes.S s) w5 /\
  formats (Log EXCEPTION "Saving project failed: " [exn_arg e]) = false.
Proof.
  intros Hr Hd Hc Hi Hst Hs He w5.
  assert (Hdo : do_repo self cp repo g st mh w = (Ret (PBool true), w5)).
  { rewrite (do_repo_copied _ _ _ _ _ _ _ _ Hd Hc).
    unfold after_copy. rewrite (bind_Ret _ _ _ _ _ Hi).
    unfold update_project_settings. mstep.
    unfold bind at 1. unfold bind at 1.
    change (logger INFO "Updating project settings on %s"
              [PStr (path_with_namespace proj)] w2)
      with (Ret tt, logged (Log INFO "Updating project settings on %s"
                                [PStr (path_with_namespace proj)]) w2).
    cbv iota beta. unfold bind at 1. rewrite Hst.
    mstep. unfold bind.
    now rewrite (save_changes_refused _ _ _ _ Hs He). }
  split; [exact Hdo|]. split; [|reflexivity].
  unfold run_loop. rewrite for_fold_cons.
  apply bind_Ret. rewrite run_step_existing by assumption.
  now rewrite Hdo.
Qed.

(** C8.  With hook migration on, after a copy and change of owner that
    went through, [shutil.move] of [hooks] to [custom_hooks] is called
    exactly when [hooks] exists at the destination; when it does not,
    nothing is called and the world is the one the copy left. *)
Theorem hooks_moved_iff_present self repo dest w w1 :
  copy_and_chown self repo dest w = (Ret tt, w1) ->
  let hook_dir := Py.os_path_join dest "hooks" in
  let new_dir := Py.os_path_join dest "custom_hooks" in
  let present := os_path_exists hook_dir (os w1) in
  let w2 := snd (copy_block self repo dest true w) in
  trace w2 =
    ((if present then [CMove hook_dir new_dir] else []) ++ trace w1)%list /\
  os w2 = (if present then snd (shutil_move hook_dir new_dir (os w1))
           else os w1) /\
  (present = false -> copy_block self repo dest true w = (Ret tt, w1)).
Proof.
  intros Hc hook_dir new_dir present w2.
  assert (E : copy_block self repo dest true w = move_hooks dest w1).
  { unfold copy_block. now rewrite (bind_Ret _ _ _ _ _ Hc). }
  subst w2. rewrite E. unfold move_hooks. mstep.
  fold hook_dir new_dir present.
  destruct present.
  - unfold bind, logger, ext. cbn [os log trace refs_remotes_path].
    destruct (shutil_move hook_dir new_dir (os w1)) as [[[]|e] s2];
      cbn; repeat split; discriminate.
  - cbn. repeat split.
Qed.

End RepoClaims.

Lemma refused_save_counts_as_imported_witness :
  fst (do_repo (Demo.importer true true) "/srv/repositories/eng"
               "/data/repos/foo.git" "eng" [("visibility", PStr "public")]
               true (Sim.world Demo.save_refused)) = Ret (PBool true).
Proof.
  pose (imp := Demo.importer true true).
  pose (st := [("visibility", PStr "public")]).
  pose (w := Sim.world Demo.save_refused).
  pose (w1 := snd (copy_block imp "/data/repos/foo.git"
                     "/srv/repositories/eng/foo.git" true
                     (logged (Log INFO "Copying %s to %s"
                                [PStr "/data/repos/foo.git";
                                 PStr "/srv/repositories/eng/foo.git"]) w))).
  pose (w2 := snd (imported_project "eng" "foo" w1)).
  pose (w3 := snd (for_fold st stage_setting (Demo.project, false)
                     (logged (Log INFO "Updating project settings on %s"
                                [PStr "eng/foo"]) w2))).
  destruct (refused_save_counts_as_imported imp "/srv/repositories/eng"
              "/data/repos/foo.git" "eng" st true [] 0 0 w w1 Demo.project w2
              (setattr Demo.project "visibility_level" (PInt 20)) w3
              (GitlabError "403 Forbidden") (os w3)) as (E & _ & _);
    [vm_compute; reflexivity .. |].
  subst imp st w. rewrite E. reflexivity.
Defined.

(** The directives counted are the ones the script's messages use. *)
Example directives_of_ownership_message :
  directives "Git repo ownership: %s:%s (%d:%d)" = 4%nat /\
  formats (Log ERROR "Error: repo path does not exist: %s" [PStr "/nope"])
    = true /\
  directives "Saving project failed: " = 0%nat.
Proof. repeat split. Qed.

(** C3 as claimed fails: with the write refused and the exception handed
    to [logger.exception], the run ends with the repo tallied as
    imported, none failed, and exit status 0. *)
Lemma refused_save_not_tallied_as_failure :
  let r := run (Demo.importer true true) "eng" ["/data/repos/foo.git"]
               [("visibility", PStr "public")] true
               (Sim.world Demo.save_refused) in
  In (Log EXCEPTION "Saving project failed: " [PStr "403 Forbidden"])
     (log (snd r)) /\
  fst r = Ret tt /\
  exit_status (fst r) = 0 /\
  head (log (snd r)) =
    Some (Log INFO "Done with all repos; imported %d, %d failed."
              [PInt 1; PInt 0]).
Proof. vm_compute. repeat split. tauto. Qed.

Lemma hooks_moved_iff_present_witness :
  let w2 := snd (copy_block (Demo.importer true true) "/data/repos/foo.git"
                   "/srv/repositories/eng/foo.git" true
                   (Sim.world Demo.healthy)) in
  head (trace w2) =
    Some (CMove "/srv/repositories/eng/foo.git/hooks"
                "/srv/repositories/eng/foo.git/custom_hooks") /\
  Sim.exists_path "/srv/repositories/eng/foo.git/custom_hooks/update" (os w2)
    = true /\
  Sim.exists_path "/srv/repositories/eng/foo.git/hooks" (os w2) = false.
Proof.
  destruct (hooks_moved_iff_present (Demo.importer true true)
              "/data/repos/foo.git" "/srv/repositories/eng/foo.git"
              (Sim.world Demo.healthy)
              (snd (copy_and_chown (Demo.importer true true)
                      "/data/repos/foo.git" "/srv/repositories/eng/foo.git"
                      (Sim.world Demo.healthy)))) as (Ht & Ho & _).
  - vm_compute. reflexivity.
  - cbv zeta. rewrite Ht, Ho. vm_compute. repeat split.
Defined.

(** ** Settings *)

Lemma py_eq_refl (v : pyval) : py_eq v v = true.
Proof.
  destruct v; simpl; auto using Bool.eqb_reflx, Z.eqb_refl, String.eqb_refl.
Qed.

Lemma boolean_setting_cases (k a : string) :
  BOOLEAN_SETTING_NAMES !! k = Some a ->
  (k = "issues" /\ a = "issues_enabled") \/
  (k = "merge_requests" /\ a = "merge_requests_enabled") \/
  (k = "wiki" /\ a = "wiki_enabled") \/
  (k = "snippets" /\ a = "snippets_enabled").
Proof.
  unfold BOOLEAN_SETTING_NAMES. intros H.
  repeat (apply lookup_insert_Some in H as [[<- <-]|[_ H]]; [tauto|]).
  apply lookup_singleton_Some in H as [<- <-]. tauto.
Qed.

(** Two entries that ask for the same attribute have the same key. *)
Lemma wanted_attr_inj k v k' v' a x x' :
  wanted (k, v) = Some (a, x) -> wanted (k', v') = Some (a, x') -> k = k'.
Proof.
  unfold wanted.
  destruct (String.eqb_spec k "visibility") as [->|Hk];
    destruct (String.eqb_spec k' "visibility") as [->|Hk']; [reflexivity|..].
  - destruct v as [| | |s]; try discriminate.
    destruct (VISIBILITY_LEVELS !! s); [|discriminate].
    intros [= <- <-].
    destruct (BOOLEAN_SETTING_NAMES !! k') as [a'|] eqn:E; [|discriminate].
    destruct (is_None v'); [discriminate|]. intros [= -> _].
    apply boolean_setting_cases in E. intuition discriminate.
  - destruct (BOOLEAN_SETTING_NAMES !! k) as [a'|] eqn:E; [|discriminate].
    destruct (is_None v); [discriminate|]. intros [= -> _].
    destruct v' as [| | |s]; try discriminate.
    destruct (VISIBILITY_LEVELS !! s); [|discriminate].
    intros [= <- _].
    apply boolean_setting_cases in E. intuition discriminate.
  - destruct (BOOLEAN_SETTING_NAMES !! k) as [a1|] eqn:E; [|discriminate].
    destruct (is_None v); [discriminate|]. intros [= -> _].
    destruct (BOOLEAN_SETTING_NAMES !! k') as [a2|] eqn:E'; [|discriminate].
    destruct (is_None v'); [discriminate|]. intros [= -> _].
    apply boolean_setting_cases in E, E'.
    intuition (subst; try reflexivity; discriminate).
Qed.

Section SettingsFacts.
Context {S : Type} `{!Platform S}.
Implicit Types (w : World S) (p : Project) (sv : string * pyval).

Lemma same_outside_refl w : same_outside w w.
Proof. repeat split. Qed.

Lemma same_outside_logged r w w' :
  same_outside w w' -> same_outside w (logged r w').
Proof. intros (?&?&?). repeat split; assumption. Qed.

Lemma same_outside_trans w1 w2 w3 :
  same_outside w1 w2 -> same_outside w2 w3 -> same_outside w1 w3.
Proof. intros (?&?&?) (?&?&?). repeat split; congruence. Qed.

Ltac stage_cases k v p :=
  unfold stage_setting, wanted, getattr, visibility_level_of;
  destruct (String.eqb_spec k "visibility") as [->|?];
  [ destruct (attrs p !! "visibility_level") as [cur|] eqn:?;
    destruct v as [| | |vs]; mstep;
    try destruct (VISIBILITY_LEVELS !! vs) as [n|] eqn:?; mstep
  | destruct (BOOLEAN_SETTING_NAMES !! k) as [attr_name|] eqn:?;
    [ destruct v; cbn [is_None negb];
      try (destruct (attrs p !! attr_name) as [cur|] eqn:?); mstep
    | ] ].

(** An entry whose wish is already met changes nothing but the log. *)
Lemma stage_setting_met k v p c w ax :
  wanted (k, v) = Some ax -> has_value p ax ->
  exists r, stage_setting (k, v) (p, c) w = (Ret (p, c), logged r w).
Proof.
  intros Hw (y & Hy & Heq). revert Hw.
  stage_cases k v p; cbn [fmap option_fmap option_map]; intros [= <-];
    cbn [fst snd] in Hy, Heq; simplify_eq; rewrite Heq; mstep; eauto.
Qed.

(** An entry that asks for nothing, other than a bad visibility, is
    passed over. *)
Lemma stage_setting_skipped k v p c w :
  wanted (k, v) = None -> k <> "visibility" ->
  stage_setting (k, v) (p, c) w = (Ret (p, c), w).
Proof.
  intros Hw Hk. revert Hw.
  stage_cases k v p; try contradiction; try discriminate; reflexivity.
Qed.

(** What a step that returns has done. *)
Lemma stage_setting_done k v p c w p1 c1 w1 :
  stage_setting (k, v) (p, c) w = (Ret (p1, c1), w1) ->
  stageable (k, v) /\
  (forall ax, wanted (k, v) = Some ax -> has_value p1 ax) /\
  (forall a, (forall x, wanted (k, v) <> Some (a, x)) ->
             attrs p1 !! a = attrs p !! a).
Proof.
  unfold stageable, has_value. cbn [fst].
  stage_cases k v p; cbn [fmap option_fmap option_map];
    try discriminate;
    try (destruct (py_eq cur _) eqn:Heq; mstep);
    intros [= <- <- <-];
    (split; [intros; try discriminate; try contradiction|]);
    (split; [intros ax [= <-]; cbn [fst snd attrs setattr];
             rewrite ?lookup_insert_eq; eauto using py_eq_refl|]);
    intros a Ha; cbn [attrs setattr]; try reflexivity;
    apply lookup_insert_ne; intros <-; eapply Ha; reflexivity.
Qed.

Lemma update_project_settings_unfold (l : list (string * pyval)) p w :
  update_project_settings l p w =
    match for_fold l stage_setting (p, false)
            (logged (Log INFO "Updating project settings on %s"
                         [PStr (path_with_namespace p)]) w) with
    | (Ret st, wf) =>
        match save_changes (fst st) (snd st) wf with
        | (Ret _, w') => (Ret (fst st), w')
        | (Raise e, w') => (Raise e, w')
        end
    | (Raise e, wf) => (Raise e, wf)
    end.
Proof. reflexivity. Qed.

End SettingsFacts.

Section SettingsClaims.
Context {S : Type} `{!Platform S}.
Implicit Types (w : World S) (p : Project) (sv : string * pyval).

Lemma staging_keeps (l : list (string * pyval)) (a : string) :
  (forall sv x, In sv l -> wanted sv <> Some (a, x)) ->
  forall p c w p1 c1 w1,
  for_fold l stage_setting (p, c) w = (Ret (p1, c1), w1) ->
  attrs p1 !! a = attrs p !! a.
Proof.
  induction l as [|[k v] l IH]; intros Hl p c w p1 c1 w1 H.
  - now injection H as <- <- <-.
  - rewrite for_fold_cons in H. unfold bind in H.
    destruct (stage_setting (k, v) (p, c) w) as [[[p' c']|e] w'] eqn:E;
      [|discriminate].
    apply stage_setting_done in E as (_ & _ & Hkeep).
    rewrite (IH (fun sv x Hin => Hl sv x (or_intror Hin)) _ _ _ _ _ _ H).
    apply Hkeep. intros x. apply Hl. now left.
Qed.

(** After a staging loop that returned, every entry is one the loop can
    pass and has what it asks for. *)
Lemma staging_done (l : list (string * pyval)) :
  List.NoDup (map fst l) ->
  forall p c w p1 c1 w1,
  for_fold l stage_setting (p, c) w = (Ret (p1, c1), w1) ->
  forall sv, In sv l ->
    stageable sv /\ forall ax, wanted sv = Some ax -> has_value p1 ax.
Proof.
  induction l as [|[k v] l IH]; intros Hnd p c w p1 c1 w1 H sv Hin;
    [destruct Hin|].
  inversion Hnd as [|? ? Hk Hnd']; subst.
  rewrite for_fold_cons in H. unfold bind in H.
  destruct (stage_setting (k, v) (p, c) w) as [[[p' c']|e] w'] eqn:E;
    [|discriminate].
  destruct Hin as [<-|Hin]; [|now apply (IH Hnd' _ _ _ _ _ _ H)].
  apply stage_setting_done in E as (Hst & Hhas & _).
  split; [exact Hst|].
  intros [a x] Hw. destruct (Hhas _ Hw) as (y & Hy & Heq).
  exists y. split; [|exact Heq]. cbn [fst] in *.
  rewrite (staging_keeps l a) with (p := p') (c := c') (w := w') (c1 := c1)
                                   (w1 := w1); [exact Hy| |exact H].
  intros [k' v'] x' Hin' Hw'. apply Hk.
  rewrite (wanted_attr_inj _ _ _ _ _ _ _ Hw Hw').
  apply (in_map fst _ _ Hin').
Qed.

(** On a project that has all that is asked for, the loop stages
    nothing and touches nothing outside. *)
Lemma staging_noop (l : list (string * pyval)) p :
  (forall sv, In sv l ->
     stageable sv /\ forall ax, wanted sv = Some ax -> has_value p ax) ->
  forall c w, exists w',
    for_fold l stage_setting (p, c) w = (Ret (p, c), w') /\ same_outside w w'.
Proof.
  induction l as [|[k v] l IH]; intros Hl c w.
  - exists w. split; [reflexivity|apply same_outside_refl].
  - destruct (Hl (k, v) (or_introl eq_refl)) as [Hst Hhas].
    assert (exists w1, stage_setting (k, v) (p, c) w = (Ret (p, c), w1)
                       /\ same_outside w w1) as (w1 & E & Hs).
    { destruct (wanted (k, v)) as [ax|] eqn:Hw.
      - destruct (stage_setting_met k v p c w ax Hw (Hhas _ eq_refl)) as [r E].
        exists (logged r w). split; [exact E|].
        apply same_outside_logged, same_outside_refl.
      - exists w. split; [|apply same_outside_refl].
        apply stage_setting_skipped; [exact Hw|].
        intros ->. now apply Hst. }
    destruct (IH (fun sv Hin => Hl sv (or_intror Hin)) c w1) as (w' & E' & Hs').
    exists w'. split; [|eapply same_outside_trans; eassumption].
    rewrite for_fold_cons. now rewrite (bind_Ret _ _ _ _ _ E).
Qed.

Lemma update_project_settings_inv l p w p1 w1 :
  update_project_settings l p w = (Ret p1, w1) ->
  exists c wf,
    for_fold l stage_setting (p, false)
      (logged (Log INFO "Updating project settings on %s"
                   [PStr (path_with_namespace p)]) w) = (Ret (p1, c), wf).
Proof.
  rewrite update_project_settings_unfold.
  destruct (for_fold l stage_setting (p, false) _) as [[[p' c']|e] wf];
    [|discriminate].
  cbn [fst snd].
  destruct (save_changes p' c' wf) as [[[]|e] w']; [|discriminate].
  intros [= <- <-]. eauto.
Qed.

(** C4.  For a mapping without repeated keys: if one call of
    [update_project_settings] returns, a second call with the same
    mapping on the project it left, in any world, stages nothing and
    returns the same project; outside the log the world is untouched, so
    no remote write is made. *)
Theorem settings_idempotent (settings : list (string * pyval)) p w p1 w1 :
  List.NoDup (map fst settings) ->
  update_project_settings settings p w = (Ret p1, w1) ->
  forall w2, exists w3,
    update_project_settings settings p1 w2 = (Ret p1, w3) /\
    os w3 = os w2 /\ trace w3 = trace w2.
Proof.
  intros Hnd H w2.
  apply update_project_settings_inv in H as (c & wf & H).
  pose proof (staging_done settings Hnd _ _ _ _ _ _ H) as Hdone.
  destruct (staging_noop settings p1 Hdone false
              (logged (Log INFO "Updating project settings on %s"
                           [PStr (path_with_namespace p1)]) w2))
    as (w' & E & (Ho & Ht & _)).
  exists (logged (Log INFO "No changes to project settings." []) w').
  split; [|split; assumption].
  rewrite update_project_settings_unfold, E. reflexivity.
Qed.

(** A flag of the mapping whose value is [None] is passed over: nothing
    is read, staged or raised. *)
Lemma null_flag_ignored (setting : string) p c w :
  setting <> "visibility" ->
  stage_setting (setting, PNone) (p, c) w = (Ret (p, c), w).
Proof.
  intros Hk. apply stage_setting_skipped; [|exact Hk].
  unfold wanted. destruct (String.eqb_spec setting "visibility");
    [contradiction|].
  now destruct (BOOLEAN_SETTING_NAMES !! setting).
Qed.

Lemma null_visibility_step p c w :
  stage_setting ("visibility", PNone) (p, c) w =
    (Raise (match attrs p !! "visibility_level" with
            | Some _ => KeyError PNone
            | None => AttributeError "visibility_level"
            end), w).
Proof.
  unfold stage_setting, getattr, visibility_level_of.
  cbn [String.eqb Ascii.eqb Bool.eqb andb].
  now destruct (attrs p !! "visibility_level").
Qed.

(** C2, the defect.  Whatever the order of the mapping, the project and
    the world: when [visibility] maps to [None], [update_project_settings]
    raises. *)
Theorem null_visibility_raises (settings : list (string * pyval)) p w :
  In ("visibility", PNone) settings ->
  exists e w', update_project_settings settings p w = (Raise e, w').
Proof.
  intros Hin.
  assert (forall c w0, exists e w',
            for_fold settings stage_setting (p, c) w0 = (Raise e, w')) as Hf.
  { revert p. induction settings as [|sv l IH]; intros p c w0;
      [destruct Hin|].
    rewrite for_fold_cons. unfold bind.
    destruct Hin as [->|Hin].
    - rewrite null_visibility_step. eauto.
    - destruct (stage_setting sv (p, c) w0) as [[[p' c']|e] w'] eqn:E;
        [|eauto].
      apply (IH Hin). }
  destruct (Hf false (logged (Log INFO "Updating project settings on %s"
                                  [PStr (path_with_namespace p)]) w))
    as (e & w' & E).
  exists e, w'. now rewrite update_project_settings_unfold, E.
Qed.

End SettingsClaims.

(** The example of the specification: [public] and issues off, against a
    private project with issues on, changes both and saves once. *)
Example two_settings_one_save :
  let r := update_project_settings
             [("visibility", PStr "public"); ("issues", PBool false)]
             Demo.project (Sim.world Demo.healthy) in
  fst r = Ret (setattr (setattr Demo.project "visibility_level" (PInt 20))
                       "issues_enabled" (PBool false)) /\
  trace (snd r) =
    [CSave (setattr (setattr Demo.project "visibility_level" (PInt 20))
                    "issues_enabled" (PBool false))].
Proof. vm_compute. split; reflexivity. Qed.

Lemma settings_idempotent_witness :
  let st := [("visibility", PStr "public"); ("issues", PBool false)] in
  let p1 := setattr (setattr Demo.project "visibility_level" (PInt 20))
                    "issues_enabled" (PBool false) in
  exists w3,
    update_project_settings st p1 (Sim.world Demo.healthy) = (Ret p1, w3) /\
    os w3 = Demo.healthy /\ trace w3 = [].
Proof.
  cbv zeta.
  apply (settings_idempotent
           [("visibility", PStr "public"); ("issues", PBool false)]
           Demo.project (Sim.world Demo.healthy) _
           (snd (update_project_settings
                   [("visibility", PStr "public"); ("issues", PBool false)]
                   Demo.project (Sim.world Demo.healthy)))).
  - repeat constructor; simpl; intuition discriminate.
  - vm_compute. reflexivity.
Defined.

Lemma null_visibility_raises_witness :
  exists e w',
    update_project_settings (settings_of_args (Demo.args None)) Demo.project
      (Sim.world Demo.healthy) = (Raise e, w').
Proof.
  apply null_visibility_raises. left. reflexivity.
Defined.

(** A run without [--visibility]: the repo is copied and imported, and
    then the run dies of the [KeyError] with exit status 1, before any
    tally. *)
Lemma default_run_aborts :
  let r := main "http://127.0.0.1" "token" "/bin/gitlab-ctl" None false true
                false "eng" ["/data/repos/foo.git"; "/data/repos/bare"]
                (Demo.args None) true (Sim.world Demo.healthy) in
  fst r = Raise (KeyError PNone) /\
  exit_status (fst r) = 1 /\
  Sim.exists_path "/srv/repositories/eng/foo.git" (os (snd r)) = true /\
  Sim.exists_path "/srv/repositories/eng/bare.git" (os (snd r)) = false.
Proof. vm_compute. repeat split. Qed.

(** ** The ignore callback *)

Lemma startswith_refl (s : string) : Py.startswith s s = true.
Proof.
  induction s as [|c s IH]; [reflexivity|].
  cbn [Py.startswith]. now rewrite Ascii.eqb_refl, IH.
Qed.

Lemma startswith_app_l (s a b : string) :
  Py.startswith s (a +:+ b) = true -> Py.startswith s a = true.
Proof.
  revert s. induction a as [|c a IH]; intros s; [now destruct s|].
  rewrite app_cons. destruct s as [|d s]; cbn [Py.startswith];
    [discriminate|].
  intros H. apply andb_true_iff in H as [-> H]. now apply IH.
Qed.

(** A path under the directory begins with the directory's text. *)
Lemma lies_under_startswith (root path : string) :
  lies_under root path = true -> Py.startswith path root = true.
Proof.
  unfold lies_under. intros H. apply orb_true_iff in H as [H|H].
  - apply String.eqb_eq in H as ->. apply startswith_refl.
  - now apply startswith_app_l in H.
Qed.

Section CallbackClaims.
Context {S : Type} `{!Platform S}.
Implicit Types (self : Importer) (w : World S).

Lemma ignore_item_spec self rr dirname item (skip : list string) w :
  refs_remotes_path w = Some rr ->
  exists w',
    ignore_item self dirname item skip w =
      (Ret (if skips self rr (os w) dirname item then (skip ++ [item])%list
            else skip), w')
    /\ same_outside w w'.
Proof.
  intros Hrr. unfold ignore_item, skips, get_refs_remotes_path.
  destruct (ignore_broken_links self); mstep; cbn [andb orb].
  - destruct (os_path_exists (Py.os_path_join dirname item) (os w));
      cbn [negb orb]; mstep.
    + destruct (ignore_refs_remotes self); mstep; cbn [andb].
      * unfold bind. rewrite Hrr.
        destruct (Py.startswith (Py.os_path_join dirname item) rr); mstep;
          eexists; (split; [reflexivity|]); repeat split.
      * eexists; (split; [reflexivity|]); repeat split.
    + eexists; (split; [reflexivity|]); repeat split.
  - destruct (ignore_refs_remotes self); mstep; cbn [andb].
    + unfold bind. rewrite Hrr.
      destruct (Py.startswith (Py.os_path_join dirname item) rr); mstep;
        eexists; (split; [reflexivity|]); repeat split.
    + eexists; (split; [reflexivity|]); repeat split.
Qed.

(** The callback returns, in order, the items that pass one of the two
    tests; it only reads the world and writes the log. *)
Lemma ignore_files_callback_spec self rr dirname items w :
  refs_remotes_path w = Some rr ->
  exists w',
    ignore_files_callback self dirname items w =
      (Ret (List.filter (skips self rr (os w) dirname) items), w')
    /\ same_outside w w'.
Proof.
  intros Hrr. unfold ignore_files_callback.
  change (List.filter (skips self rr (os w) dirname) items)
    with ([] ++ List.filter (skips self rr (os w) dirname) items)%list.
  generalize (@nil string) as acc. revert w Hrr.
  induction items as [|item items IH]; intros w Hrr acc.
  - exists w. rewrite app_nil_r. split; [reflexivity|repeat split].
  - destruct (ignore_item_spec self rr dirname item acc w Hrr)
      as (w1 & E1 & (Ho & Ht & Hr)).
    destruct (IH w1 (eq_trans Hr Hrr)
                (if skips self rr (os w) dirname item then (acc ++ [item])%list
                 else acc)) as (w' & E & (Ho' & Ht' & Hr')).
    exists w'. split; [|repeat split; congruence].
    rewrite for_fold_cons, (bind_Ret _ _ _ _ _ E1), E, Ho.
    cbn [List.filter].
    destruct (skips self rr (os w) dirname item); [|reflexivity].
    now rewrite <- app_assoc.
Qed.

(** Line 205 and the call of line 206: the copy is [shutil.copytree],
    given the callback, started in the world in which the path of the
    repo's [refs/remotes] has been stashed. *)
Lemma copy_starts_stashed self repo_path dest w :
  copy_and_chown self repo_path dest w =
    (shutil_copytree repo_path dest (ignore_files_callback self) ;;;
     finish_copy self dest)
      (mkWorld (os w) (log w) (CCopytree repo_path dest :: trace w)
               (Some (Py.os_path_join (Py.os_path_join repo_path "refs")
                                      "remotes"))).
Proof.
  unfold copy_and_chown, finish_copy, chown_tree, copytree, bind,
    set_refs_remotes_path, logger, ask.
  cbn [os log trace refs_remotes_path].
  repeat case_match; simplify_eq; try reflexivity; congruence.
Qed.

(** C6, amended.  With the refs-remotes flag set, [do_repo] starts the
    copy with the path of the repo's [refs/remotes] stashed, and the
    callback leaves the stash as it is.  In every world with that stash,
    for every directory and item list, the callback excludes every item
    under the repo's [refs/remotes], and, with the broken-link flag set,
    every item that does not exist; and it excludes nothing else than
    listed items that do not exist (with the broken-link flag set) or
    whose joined path begins with the text of the [refs/remotes] path. *)
Theorem refs_remotes_filtered self repo_path dest dirname items w :
  let rr := Py.os_path_join (Py.os_path_join repo_path "refs") "remotes" in
  let start :=
    mkWorld (os w) (log w) (CCopytree repo_path dest :: trace w) (Some rr) in
  ignore_refs_remotes self = true ->
  copy_and_chown self repo_path dest w =
    (shutil_copytree repo_path dest (ignore_files_callback self) ;;;
     finish_copy self dest) start /\
  forall w0, refs_remotes_path w0 = refs_remotes_path start ->
    exists skip w',
      ignore_files_callback self dirname items w0 = (Ret skip, w') /\
      same_outside w0 w' /\
      (forall item, In item items ->
         lies_under rr (Py.os_path_join dirname item) = true ->
         In item skip) /\
      (ignore_broken_links self = true ->
       forall item, In item items ->
         os_path_exists (Py.os_path_join dirname item) (os w0) = false ->
         In item skip) /\
      (forall item, In item skip ->
         In item items /\
         ((ignore_broken_links self = true /\
           os_path_exists (Py.os_path_join dirname item) (os w0) = false)
          \/ Py.startswith (Py.os_path_join dirname item) rr = true)).
Proof.
  intros rr start Hflag. split; [apply copy_starts_stashed|].
  intros w0 Hrr. cbn [refs_remotes_path start] in Hrr.
  destruct (ignore_files_callback_spec self rr dirname items w0 Hrr)
    as (w' & E & Hs).
  exists (List.filter (skips self rr (os w0) dirname) items), w'.
  split; [exact E|]. split; [exact Hs|]. split; [|split].
  - intros item Hin Hu. apply filter_In. split; [exact Hin|].
    unfold skips. rewrite Hflag, (lies_under_startswith _ _ Hu).
    apply orb_true_r.
  - intros Hb item Hin He. apply filter_In. split; [exact Hin|].
    unfold skips. now rewrite Hb, He.
  - intros item Hin. apply filter_In in Hin as [Hin Hs'].
    split; [exact Hin|]. unfold skips in Hs'. rewrite Hflag in Hs'.
    apply orb_true_iff in Hs' as [Hs'|Hs']; [left|right; exact Hs'].
    apply andb_true_iff in Hs' as [Hb He].
    split; [exact Hb|]. now apply negb_true_iff.
Qed.

End CallbackClaims.

Lemma refs_remotes_filtered_witness :
  fst (ignore_files_callback (Demo.importer true true)
         "/data/repos/foo.git/refs" ["heads"; "remotes"]
         (mkWorld Demo.healthy [] []
                  (Some "/data/repos/foo.git/refs/remotes")))
  = Ret ["remotes"].
Proof.
  destruct (refs_remotes_filtered (Demo.importer true true)
              "/data/repos/foo.git" "/srv/repositories/eng/foo.git"
              "/data/repos/foo.git/refs" ["heads"; "remotes"]
              (Sim.world Demo.healthy)) as [_ H]; [reflexivity|].
  destruct (H (mkWorld Demo.healthy [] []
                       (Some "/data/repos/foo.git/refs/remotes")))
    as (skip & w' & E & _); [reflexivity|].
  vm_compute. reflexivity.
Defined.

(** On the platform of the examples the copy hands the stash on to the
    callback: with both flags set, the copy of [foo.git] has its [refs]
    and [refs/heads] and neither [refs/remotes] nor the dangling link. *)
Example refs_remotes_left_out_of_copy :
  let w := snd (copy_and_chown (Demo.importer true true) "/data/repos/foo.git"
                  "/srv/repositories/eng/foo.git" (Sim.world Demo.healthy)) in
  map (fun p => Sim.exists_path ("/srv/repositories/eng/foo.git" +:+ p) (os w))
      ["/refs/heads"; "/refs/remotes"; "/refs/remotes/origin"; "/HEAD"]
    = [true; false; false; true].
Proof. vm_compute. reflexivity. Qed.

(** C6 as claimed fails, twice over.  With both flags set a dangling
    link outside [refs/remotes] is excluded; and with the refs-remotes
    flag alone [refs/remotes-old], which is not under [refs/remotes], is
    excluded with it, because the test is on the text of the path. *)
Lemma refs_remotes_filter_not_exact :
  let rr := "/data/repos/foo.git/refs/remotes" in
  let w := mkWorld Demo.healthy [] [] (Some rr) in
  (fst (ignore_files_callback (Demo.importer true true)
          "/data/repos/foo.git" ["HEAD"; "dangling"] w) = Ret ["dangling"]
   /\ lies_under rr "/data/repos/foo.git/dangling" = false) /\
  (fst (ignore_files_callback (Demo.importer false true)
          "/data/repos/foo.git/refs" ["heads"; "remotes"; "remotes-old"] w)
     = Ret ["remotes"; "remotes-old"]
   /\ lies_under rr "/data/repos/foo.git/refs/remotes-old" = false).
Proof. vm_compute. repeat split. Qed.

(** ** Configuration discovery *)

Section ConfigClaims.
Context {S : Type} `{!Platform S}.
Implicit Types (w : World S).

(** One of the three [try]/[except KeyError] blocks of [_get_config]: on
    a document whose members on the way are objects where present, the
    block gives the value at the end of the path, or the default, and
    logs one record. *)
Lemma lookup_block (conf : json) (k1 k2 k3 fmt_found fmt_default : string)
    (dflt : json) w :
  match conf with JObj _ => true | _ => false end = true ->
  object_or_absent (dig conf [k1]) = true ->
  object_or_absent (dig conf [k1; k2]) = true ->
  exists r,
    try_except
      (g <- getitem conf k1 ;;
       r <- getitem g k2 ;;
       x <- getitem r k3 ;;
       logger INFO fmt_found [json_arg x] ;;;
       ret x)
      is_KeyError
      (fun _ => logger WARNING fmt_default [json_arg dflt] ;;; ret dflt) w
    = (Ret (default dflt (dig conf [k1; k2; k3])), logged r w).
Proof.
  destruct conf as [| | | | |fs]; try discriminate. intros _.
  unfold try_except, bind, getitem, logged. cbn.
  destruct (assoc k1 fs) as [g|]; cbn; [|intros; eexists; reflexivity].
  destruct g as [| | | | |gs]; try discriminate. intros _. cbn.
  destruct (assoc k2 gs) as [r|]; cbn; [|intros; eexists; reflexivity].
  destruct r as [| | | | |rs]; try discriminate. intros _. cbn.
  destruct (assoc k3 rs) as [x|]; cbn; eexists; reflexivity.
Qed.

(** Discovery gives what is documented, for a failing command, for text
    that is not JSON, and for a document of the expected shape. *)
Lemma get_config_result (gitlab_ctl_path : string) w r :
  documented_config json_loads
    (fst (subprocess_check_output [gitlab_ctl_path; "show-config"] (os w)))
    = Some r ->
  fst (_get_config gitlab_ctl_path w) = r.
Proof.
  unfold documented_config, _get_config. cbv zeta.
  unfold bind at 1. unfold logger at 1. cbv iota beta.
  unfold bind at 1. unfold check_output, ext. cbn [os log trace].
  destruct (subprocess_check_output [gitlab_ctl_path; "show-config"] (os w))
    as [[text|e] s1]; cbn [fst]; [|now intros [= <-]].
  unfold bind at 1. unfold logger at 1. cbv iota beta.
  unfold bind at 1.
  destruct (json_loads text) as [conf|]; [|now intros [= <-]].
  destruct (well_shaped conf) eqn:Hw; [|discriminate]. intros [= <-].
  unfold ret at 1. cbv iota beta.
  unfold well_shaped in Hw.
  assert (Hobj : match conf with JObj _ => true | _ => false end = true)
    by (destruct conf; try discriminate; reflexivity).
  destruct conf as [| | | | |fs]; try discriminate.
  apply andb_true_iff in Hw as [Hw Hu]. apply andb_true_iff in Hw as [Hg Hr].
  unfold bind at 1.
  match goal with
  | |- context [try_except _ _ _ ?w0] =>
      destruct (lookup_block (JObj fs) "gitlab" "gitlab-rails"
                  "gitlab_shell_repos_path"
                  "Found repos path from config as: %s"
                  "Could not find gitlab_shell_repos_path in config, using default of: %s"
                  (JStr default_repos_path) w0 Hobj Hg Hr) as [r1 ->]
  end.
  unfold bind at 1.
  match goal with
  | |- context [try_except _ _ _ ?w0] =>
      destruct (lookup_block (JObj fs) "gitlab" "user" "username"
                  "Found gitlab username from config as: %s"
                  "Could not find gitlab username in config, using default of: %s"
                  (JStr "git") w0 Hobj Hg Hu) as [r2 ->]
  end.
  unfold bind at 1.
  match goal with
  | |- context [try_except _ _ _ ?w0] =>
      destruct (lookup_block (JObj fs) "gitlab" "user" "group"
                  "Found gitlab group from config as: %s"
                  "Could not find gitlab group in config, using default of: %s"
                  (JStr "git") w0 Hobj Hg Hu) as [r3 ->]
  end.
  reflexivity.
Qed.

(** A failure of discovery is fatal: the main program ends with the same
    exception, after the log-in and the configuration command and
    nothing else. *)
Lemma config_failure_is_fatal
    (url apikey ctl : string) rd rof ibl irr group paths args mh w u s1 e w2 :
  gitlab_auth url apikey (os w) = (Ret u, s1) ->
  _get_config ctl
    (mkWorld s1
       (Log INFO "Connected to GitLab as %s" [PStr u]
        :: Log DEBUG "Connecting to GitLab" [] :: log w)
       (CAuth url apikey :: trace w) (refs_remotes_path w)) = (Raise e, w2) ->
  main url apikey ctl rd rof ibl irr group paths args mh w = (Raise e, w2).
Proof.
  intros Ha Hc. unfold main, __init__, bind, logger, ext.
  cbn [os log trace refs_remotes_path]. rewrite Ha.
  cbn [os log trace refs_remotes_path]. now rewrite Hc.
Qed.

(** When discovery is documented to fail, it has called the command and
    nothing else. *)
Lemma get_config_failure_trace (gitlab_ctl_path : string) w e :
  documented_config json_loads
    (fst (subprocess_check_output [gitlab_ctl_path; "show-config"] (os w)))
    = Some (Raise e) ->
  trace (snd (_get_config gitlab_ctl_path w)) =
    CCheckOutput [gitlab_ctl_path; "show-config"] :: trace w.
Proof.
  unfold documented_config, _get_config. cbv zeta.
  unfold bind at 1. unfold logger at 1. cbv iota beta.
  unfold bind at 1. unfold check_output, ext. cbn [os log trace].
  destruct (subprocess_check_output [gitlab_ctl_path; "show-config"] (os w))
    as [[text|e'] s1]; cbn [fst]; [|reflexivity].
  unfold bind at 1. unfold logger at 1. cbv iota beta.
  unfold bind at 1.
  destruct (json_loads text) as [conf|]; [|reflexivity].
  destruct (well_shaped conf); discriminate.
Qed.

(** C9, amended.  After the log-in: when the configuration command fails,
    discovery fails with the command's exception; when its output is not
    valid JSON, discovery exits with status 1; either way the main
    program ends there, having called the log-in and the command and
    nothing else.  When the output is a JSON object whose [gitlab],
    [gitlab-rails] and [user] members are objects where present,
    discovery returns the user, the group and the storage path of the
    document, with [git], [git] and
    [/var/opt/gitlab/git-data/repositories] for the ones that are
    absent. *)
Theorem get_config_documented
    (url apikey ctl : string) rd rof ibl irr group paths args mh w u s1 r :
  gitlab_auth url apikey (os w) = (Ret u, s1) ->
  documented_config json_loads
    (fst (subprocess_check_output [ctl; "show-config"] s1)) = Some r ->
  let w1 :=
    mkWorld s1
      (Log INFO "Connected to GitLab as %s" [PStr u]
       :: Log DEBUG "Connecting to GitLab" [] :: log w)
      (CAuth url apikey :: trace w) (refs_remotes_path w) in
  let outcome := main url apikey ctl rd rof ibl irr group paths args mh w in
  fst (_get_config ctl w1) = r /\
  forall e, r = Raise e ->
    fst outcome = Raise e /\
    trace (snd outcome) =
      CCheckOutput [ctl; "show-config"] :: CAuth url apikey :: trace w.
Proof.
  intros Ha Hd w1 outcome.
  pose proof (get_config_result ctl w1 r Hd) as Hr.
  split; [exact Hr|]. intros e ->.
  pose proof (get_config_failure_trace ctl w1 e Hd) as Ht.
  destruct (_get_config ctl w1) as [r1 w2] eqn:E. cbn [fst snd] in Hr, Ht.
  subst r1 outcome.
  rewrite (config_failure_is_fatal url apikey ctl rd rof ibl irr group paths
             args mh w u s1 e w2 Ha E).
  split; [reflexivity|exact Ht].
Qed.

End ConfigClaims.

Lemma get_config_documented_witness :
  fst (_get_config "/bin/gitlab-ctl"
         (mkWorld Demo.healthy
            [Log INFO "Connected to GitLab as %s" [PStr "root"];
             Log DEBUG "Connecting to GitLab" []]
            [CAuth "http://127.0.0.1" "token"] None)) =
    Ret (JStr "gitlab", JStr "gitlab", JStr "/srv/repositories")
  /\ fst (main "http://127.0.0.1" "token" "/bin/gitlab-ctl" None false true
               true "eng" ["/data/repos/foo.git"] (Demo.args None) true
               (Sim.world (Demo.server (0, "not json") None))) =
    Raise (SystemExit (PInt 1)).
Proof.
  split.
  - destruct (get_config_documented "http://127.0.0.1" "token"
                "/bin/gitlab-ctl" None false true true "eng"
                ["/data/repos/foo.git"] (Demo.args None) true
                (Sim.world Demo.healthy) "root" Demo.healthy
                (Ret (JStr "gitlab", JStr "gitlab", JStr "/srv/repositories")))
      as [E _]; [reflexivity|vm_compute; reflexivity|exact E].
  - destruct (get_config_documented "http://127.0.0.1" "token"
                "/bin/gitlab-ctl" None false true true "eng"
                ["/data/repos/foo.git"] (Demo.args None) true
                (Sim.world (Demo.server (0, "not json") None)) "root"
                (Demo.server (0, "not json") None)
                (Raise (SystemExit (PInt 1))))
      as [_ F]; [reflexivity|vm_compute; reflexivity|].
    exact (proj1 (F _ eq_refl)).
Defined.

(** C9 as claimed fails.  The command exits with status 1 after printing
    valid JSON: the run is fatal all the same.  And the command prints
    the valid document [[]], in which the three keys are absent: the
    result is a [TypeError], not the defaults. *)
Lemma config_fatal_with_valid_json :
  let run_with ctl :=
    main "http://127.0.0.1" "token" "/bin/gitlab-ctl" None false true false
         "eng" ["/data/repos/foo.git"] (Demo.args (Some "public")) true
         (Sim.world (Demo.server ctl None)) in
  (Sim.loads "{}" = Some (JObj []) /\
   fst (run_with (1, "{}")) = Raise (CalledProcessError 1 "{}") /\
   exit_status (fst (run_with (1, "{}"))) = 1 /\
   trace (snd (run_with (1, "{}"))) =
     [CCheckOutput Demo.ctl_cmd; CAuth "http://127.0.0.1" "token"]) /\
  (Sim.loads "[]" = Some (JArr []) /\
   fst (run_with (0, "[]")) = Raise TypeError /\
   exit_status (fst (run_with (0, "[]"))) = 1).
Proof. vm_compute. repeat split. Qed.

(** * More of the script *)

(** ** [run] and [do_repo]: what stops a repo and what stops the run *)

Section RunMore.
Context {S : Type} `{!Platform S}.
Implicit Types (self : Importer) (w : World S).

(** [do_repo] past the test of the destination. *)
Lemma do_repo_unfold self cp repo g st mh w :
  os_path_exists (dest_path_of cp repo) (os w) = false ->
  do_repo self cp repo g st mh w =
    match try_except
            (copy_block self repo (dest_path_of cp repo) mh ;;; ret true)
            is_Exception
            (fun ex => copy_failed self (dest_path_of cp repo) ;;; ret false)
            (logged (Log INFO "Copying %s to %s"
                         [PStr repo; PStr (dest_path_of cp repo)]) w) with
    | (Ret copied, w1) =>
        if copied then after_copy g (project_name_of repo) st w1
        else (Ret PNone, w1)
    | (Raise e, w1) => (Raise e, w1)
    end.
Proof.
  intros Hd. unfold do_repo. mstep. rewrite Hd.
  unfold bind at 1. unfold logger at 1. cbv iota beta.
  unfold bind at 1. unfold logged.
  destruct (try_except _ _ _ _) as [[[]|e] w1]; reflexivity.
Qed.

(** X1.  When the directory of the group does not exist under the
    storage directory, [run] logs the error and exits with status 1
    before it looks at any repo path: nothing outside is called or
    changed. *)
Theorem missing_group_is_fatal self dir group paths st mh w :
  repos_dir self = JStr dir ->
  os_path_exists (Py.os_path_join dir group) (os w) = false ->
  run self group paths st mh w =
    (Raise (SystemExit (PInt 1)),
     logged (Log ERROR
               "Error: group does not yet exist (path %s does not exist"
               [PStr (Py.os_path_join dir group)])
       (logged (Log INFO "Importing repos under group '%s'" [PStr group]) w)).
Proof.
  intros Hr He. unfold run, join_repos_dir. rewrite Hr. mstep.
  cbn [os]. now rewrite He.
Qed.

(** X2.  An exception that escapes [do_repo] ends the loop at that repo:
    the paths after it are never looked at and no tally is reached,
    whatever was counted before. *)
Theorem raising_repo_ends_loop
    self cp g st mh before repo rest f s f1 s1 w w1 e w2 :
  run_loop self cp g st mh before (f, s) w = (Ret (f1, s1), w1) ->
  os_path_exists repo (os w1) = true ->
  do_repo self cp repo g st mh w1 = (Raise e, w2) ->
  run_loop self cp g st mh (before ++ repo :: rest) (f, s) w = (Raise e, w2).
Proof.
  intros Hb He Hd. unfold run_loop in *. rewrite for_fold_app, Hb.
  rewrite for_fold_cons. apply bind_Raise.
  rewrite run_step_existing by assumption. now rewrite Hd.
Qed.

(** X3.  When the copy, the change of owner or the move of the hooks
    raises an [Exception], [do_repo] logs it and returns [None]: the
    import command and the API are not called.  The destination is
    removed, by one call of [shutil.rmtree], exactly when
    [remove_on_fail] is set and the destination exists by then; an
    exception of that removal escapes. *)
Theorem failed_copy_returns_none self cp repo g st mh w e w1 :
  os_path_exists (dest_path_of cp repo) (os w) = false ->
  copy_block self repo (dest_path_of cp repo) mh
    (logged (Log INFO "Copying %s to %s"
                 [PStr repo; PStr (dest_path_of cp repo)]) w) = (Raise e, w1) ->
  is_Exception e = true ->
  let dest := dest_path_of cp repo in
  let w2 := logged (Log EXCEPTION "Exception when copying repo" []) w1 in
  do_repo self cp repo g st mh w =
    if remove_on_fail self && os_path_exists dest (os w1) then
      let w3 s3 :=
        mkWorld s3 (Log WARNING "Removing %s" [PStr dest] :: log w2)
                (CRmtree dest :: trace w1) (refs_remotes_path w1) in
      match shutil_rmtree dest (os w1) with
      | (Ret _, s3) => (Ret PNone, w3 s3)
      | (Raise e', s3) => (Raise e', w3 s3)
      end
    else (Ret PNone, w2).
Proof.
  intros Hd Hc He dest w2. rewrite (do_repo_unfold _ _ _ _ _ _ _ Hd).
  rewrite (try_caught _ _ _ _ e w1); [|now apply bind_Raise|exact He].
  subst w2 dest.
  unfold copy_failed, bind, logger, ask, ret, ext, logged.
  destruct (remove_on_fail self);
    cbv beta iota; cbn [andb os log trace refs_remotes_path]; [|reflexivity].
  destruct (os_path_exists (dest_path_of cp repo) (os w1));
    cbv beta iota; cbn [os log trace refs_remotes_path]; [|reflexivity].
  destruct (shutil_rmtree (dest_path_of cp repo) (os w1)) as [[[]|e'] s3];
    reflexivity.
Qed.

(** X4.  What is raised in the copy and is not an [Exception]
    ([KeyboardInterrupt], [SystemExit]) is not caught: it escapes
    [do_repo] as it is, nothing is logged for it and nothing is removed,
    whatever [remove_on_fail] says. *)
Theorem interrupt_escapes_copy self cp repo g st mh w e w1 :
  os_path_exists (dest_path_of cp repo) (os w) = false ->
  copy_block self repo (dest_path_of cp repo) mh
    (logged (Log INFO "Copying %s to %s"
                 [PStr repo; PStr (dest_path_of cp repo)]) w) = (Raise e, w1) ->
  is_Exception e = false ->
  do_repo self cp repo g st mh w = (Raise e, w1).
Proof.
  intros Hd Hc He. rewrite (do_repo_unfold _ _ _ _ _ _ _ Hd).
  now rewrite (try_passed _ _ _ _ e w1); [|apply bind_Raise|].
Qed.

End RunMore.

Lemma missing_group_is_fatal_witness :
  exit_status
    (fst (run (Demo.importer true true) "ops" ["/data/repos/foo.git"] [] true
              (Sim.world Demo.healthy))) = 1
  /\ trace (snd (run (Demo.importer true true) "ops" ["/data/repos/foo.git"]
                     [] true (Sim.world Demo.healthy))) = [].
Proof.
  rewrite (missing_group_is_fatal (Demo.importer true true)
             "/srv/repositories" "ops" ["/data/repos/foo.git"] [] true
             (Sim.world Demo.healthy)); [split|..]; reflexivity.
Defined.

Lemma raising_repo_ends_loop_witness :
  fst (run_loop (Demo.importer true true) "/srv/repositories/eng" "eng"
         [("visibility", PNone)] true
         (["/nope"] ++ "/data/repos/foo.git" :: ["/data/repos/bare"])
         (0, 0)%nat (Sim.world Demo.healthy)) = Raise (KeyError PNone).
Proof.
  pose (imp := Demo.importer true true).
  pose (w1 := snd (run_loop imp "/srv/repositories/eng" "eng"
                     [("visibility", PNone)] true ["/nope"] (0, 0)%nat
                     (Sim.world Demo.healthy))).
  pose (w2 := snd (do_repo imp "/srv/repositories/eng" "/data/repos/foo.git"
                     "eng" [("visibility", PNone)] true w1)).
  rewrite (raising_repo_ends_loop imp "/srv/repositories/eng" "eng"
             [("visibility", PNone)] true ["/nope"] "/data/repos/foo.git"
             ["/data/repos/bare"] 0 0 0 0 (Sim.world Demo.healthy) w1
             (KeyError PNone) w2);
    [reflexivity|vm_compute; reflexivity..].
Defined.

Lemma failed_copy_returns_none_witness :
  let r := do_repo (mkImporter true false false 998 997
                      (JStr "/srv/repositories"))
             "/srv/repositories/eng" "/data/repos/foo.git" "eng" [] true
             (Sim.world Demo.healthy) in
  fst r = Ret PNone /\
  head (trace (snd r)) = Some (CRmtree "/srv/repositories/eng/foo.git") /\
  Sim.exists_path "/srv/repositories/eng/foo.git" (os (snd r)) = false.
Proof.
  pose (imp := mkImporter true false false 998 997 (JStr "/srv/repositories")).
  pose (w := Sim.world Demo.healthy).
  pose (w1 := snd (copy_block imp "/data/repos/foo.git"
                     "/srv/repositories/eng/foo.git" true
                     (logged (Log INFO "Copying %s to %s"
                                [PStr "/data/repos/foo.git";
                                 PStr "/srv/repositories/eng/foo.git"]) w))).
  cbv zeta.
  rewrite (failed_copy_returns_none imp "/srv/repositories/eng"
             "/data/repos/foo.git" "eng" [] true w ShutilError w1);
    [|vm_compute; reflexivity..].
  vm_compute. repeat split.
Defined.

Lemma interrupt_escapes_copy_witness :
  let r := @do_repo _ Interrupt.platform
             (mkImporter true false false 998 997 (JStr "/srv/repositories"))
             "/srv/repositories/eng" "/data/repos/foo.git" "eng" [] true
             (Sim.world Demo.healthy) in
  fst r = Raise KeyboardInterrupt /\
  trace (snd r) =
    [CCopytree "/data/repos/foo.git" "/srv/repositories/eng/foo.git"].
Proof.
  cbv zeta.
  set (imp := mkImporter true false false 998 997 (JStr "/srv/repositories")).
  set (w := Sim.world Demo.healthy).
  rewrite (@interrupt_escapes_copy _ Interrupt.platform imp
             "/srv/repositories/eng" "/data/repos/foo.git" "eng" [] true w
             KeyboardInterrupt
             (snd (@copy_block _ Interrupt.platform imp "/data/repos/foo.git"
                     "/srv/repositories/eng/foo.git" true
                     (logged (Log INFO "Copying %s to %s"
                                [PStr "/data/repos/foo.git";
                                 PStr "/srv/repositories/eng/foo.git"]) w))));
    [|vm_compute; reflexivity..].
  vm_compute. split; reflexivity.
Defined.

(** ** The import command and the lookup of the project *)

Section ImportMore.
Context {S : Type} `{!Platform S}.
Implicit Types (self : Importer) (w : World S).


Lemma import_repo_eq w :
  import_repo w =
    let w0 := logged (Log INFO "Running: %s"
                          [PStr (String.concat " " import_cmd)]) w in
    match subprocess_check_output import_cmd (os w) with
    | (Ret res, s') =>
        (Ret true,
         mkWorld s'
           (Log DEBUG ("Imported repo:" +:+ Py.newline +:+ "%s") [PStr res]
            :: log w0)
           (CCheckOutput import_cmd :: trace w) (refs_remotes_path w))
    | (Raise e, s') =>
        if is_CalledProcessError e then
          (Ret false,
           mkWorld s' (import_error_record e :: log w0)
                   (CCheckOutput import_cmd :: trace w) (refs_remotes_path w))
        else
          (Raise e,
           mkWorld s' (log w0) (CCheckOutput import_cmd :: trace w)
                   (refs_remotes_path w))
    end.
Proof.
  unfold import_repo, import_error_record, try_except, bind, check_output,
    ext, logger, logged, ret.
  cbv zeta beta iota. cbn [os log trace refs_remotes_path].
  destruct (subprocess_check_output import_cmd (os w)) as [[res|e] s'];
    [reflexivity|].
  destruct (is_CalledProcessError e); reflexivity.
Qed.

Lemma find_first {A} (f : A -> bool) (l : list A) :
  match List.find f l with
  | Some x =>
      exists l1 l2, l = (l1 ++ x :: l2)%list /\ f x = true /\
                    forall y, In y l1 -> f y = false
  | None => forall y, In y l -> f y = false
  end.
Proof.
  induction l as [|a l IH]; cbn [List.find]; [intros ? []|].
  destruct (f a) eqn:Ha.
  - exists [], l. repeat split; [assumption|intros ? []].
  - destruct (List.find f l) as [x|].
    + destruct IH as (l1 & l2 & -> & Hx & Hl1).
      exists (a :: l1), l2. repeat split; [assumption|].
      intros y [<-|Hy]; auto.
    + intros y [<-|Hy]; auto.
Qed.

Lemma project_test_spec (namespace project_name : string) (p : Project) :
  String.eqb (name p) project_name && String.eqb (namespace_name p) namespace
    = true <-> is_project namespace project_name p.
Proof.
  unfold is_project. rewrite andb_true_iff, !String.eqb_eq. reflexivity.
Qed.

Lemma get_gitlab_project_lookup (namespace project_name : string) w :
  match all_projects (os w) with
  | (Ret ps, s') =>
      exists o,
        get_gitlab_project namespace project_name w =
          (Ret o, mkWorld s' (log w) (CAllProjects :: trace w)
                          (refs_remotes_path w)) /\
        match o with
        | Some p =>
            exists l1 l2,
              ps = (l1 ++ p :: l2)%list /\
              is_project namespace project_name p /\
              forall q, In q l1 -> ~ is_project namespace project_name q
        | None => forall q, In q ps -> ~ is_project namespace project_name q
        end
  | (Raise e, s') =>
      get_gitlab_project namespace project_name w =
        (Raise e, mkWorld s' (log w) (CAllProjects :: trace w)
                          (refs_remotes_path w))
  end.
Proof.
  unfold get_gitlab_project, bind, ext, ret.
  destruct (all_projects (os w)) as [[ps|e] s']; [|reflexivity].
  eexists. split; [reflexivity|].
  pose proof (find_first
                (fun p => String.eqb (name p) project_name
                          && String.eqb (namespace_name p) namespace) ps) as H.
  destruct (List.find _ ps) as [p|].
  - destruct H as (l1 & l2 & -> & Hp & Hl1). exists l1, l2.
    split; [reflexivity|]. split; [now apply project_test_spec|].
    intros q Hq Hm. apply project_test_spec in Hm.
    specialize (Hl1 q Hq). congruence.
  - intros q Hq Hm. apply project_test_spec in Hm.
    specialize (H q Hq). congruence.
Qed.

(** X5.  [get_gitlab_project] returns the first project of the listing
    whose name and namespace name are both the ones asked for, and [None]
    exactly when the listing has no such project; when the listing fails,
    its exception escapes. *)
Theorem get_gitlab_project_first_match (namespace project_name : string) w :
  match all_projects (os w) with
  | (Ret ps, s') =>
      exists o,
        get_gitlab_project namespace project_name w =
          (Ret o, mkWorld s' (log w) (CAllProjects :: trace w)
                          (refs_remotes_path w)) /\
        match o with
        | Some p =>
            exists l1 l2,
              ps = (l1 ++ p :: l2)%list /\
              is_project namespace project_name p /\
              forall q, In q l1 -> ~ is_project namespace project_name q
        | None => forall q, In q ps -> ~ is_project namespace project_name q
        end
  | (Raise e, s') =>
      get_gitlab_project namespace project_name w =
        (Raise e, mkWorld s' (log w) (CAllProjects :: trace w)
                          (refs_remotes_path w))
  end.
Proof. apply get_gitlab_project_lookup. Qed.

(** X6.  When the import command exits with a non-zero status,
    [do_repo] returns [False] after logging the status and the output of
    the command: the API is not asked for the project and no setting is
    touched; the copy stays where it is. *)
Theorem failed_import_fails_repo self cp repo g st mh w w1 rc out s2 :
  os_path_exists (dest_path_of cp repo) (os w) = false ->
  copy_block self repo (dest_path_of cp repo) mh
    (logged (Log INFO "Copying %s to %s"
                 [PStr repo; PStr (dest_path_of cp repo)]) w) = (Ret tt, w1) ->
  subprocess_check_output import_cmd (os w1)
    = (Raise (CalledProcessError rc out), s2) ->
  do_repo self cp repo g st mh w =
    (Ret (PBool false),
     mkWorld s2
       (Log ERROR ("Import failed (exit %d):" +:+ Py.newline +:+ "%s")
            [PInt rc; PStr out]
        :: Log INFO "Running: %s" [PStr (String.concat " " import_cmd)]
        :: log w1)
       (CCheckOutput import_cmd :: trace w1) (refs_remotes_path w1)).
Proof.
  intros Hd Hc Hi. rewrite (do_repo_copied _ _ _ _ _ _ _ _ Hd Hc).
  unfold after_copy, imported_project. unfold bind at 1. unfold bind at 1.
  rewrite import_repo_eq, Hi. reflexivity.
Qed.

(** X7.  When the import command cannot be run at all (what
    [check_output] raises is not a [CalledProcessError], as for a missing
    [gitlab-rake]), the exception is not caught: it escapes
    [import_repo] and [do_repo]. *)
Theorem unrunnable_import_escapes self cp repo g st mh w w1 e s2 :
  os_path_exists (dest_path_of cp repo) (os w) = false ->
  copy_block self repo (dest_path_of cp repo) mh
    (logged (Log INFO "Copying %s to %s"
                 [PStr repo; PStr (dest_path_of cp repo)]) w) = (Ret tt, w1) ->
  subprocess_check_output import_cmd (os w1) = (Raise e, s2) ->
  is_CalledProcessError e = false ->
  fst (do_repo self cp repo g st mh w) = Raise e /\
  trace (snd (do_repo self cp repo g st mh w)) =
    CCheckOutput import_cmd :: trace w1.
Proof.
  intros Hd Hc Hi He.
  assert (do_repo self cp repo g st mh w =
            (Raise e,
             mkWorld s2
               (Log INFO "Running: %s" [PStr (String.concat " " import_cmd)]
                :: log w1)
               (CCheckOutput import_cmd :: trace w1) (refs_remotes_path w1)))
    as ->; [|split; reflexivity].
  rewrite (do_repo_copied _ _ _ _ _ _ _ _ Hd Hc).
  unfold after_copy, imported_project. unfold bind at 1. unfold bind at 1.
  rewrite import_repo_eq, Hi, He. reflexivity.
Qed.

(** X8.  When the import command went through and the listing of the
    API has no project with the repo's project name in the group,
    [do_repo] logs the error and returns [False]; it has called the
    import command and the listing and nothing else, so no commit is read
    and no setting is saved. *)
Theorem unlisted_project_fails_repo self cp repo g st mh w w1 out s2 ps s3 :
  os_path_exists (dest_path_of cp repo) (os w) = false ->
  copy_block self repo (dest_path_of cp repo) mh
    (logged (Log INFO "Copying %s to %s"
                 [PStr repo; PStr (dest_path_of cp repo)]) w) = (Ret tt, w1) ->
  subprocess_check_output import_cmd (os w1) = (Ret out, s2) ->
  all_projects s2 = (Ret ps, s3) ->
  (forall q, In q ps -> ~ is_project g (project_name_of repo) q) ->
  exists w',
    do_repo self cp repo g st mh w = (Ret (PBool false), w') /\
    os w' = s3 /\
    trace w' = CAllProjects :: CCheckOutput import_cmd :: trace w1 /\
    head (log w') =
      Some (Log ERROR
              "Error: import command exited successfully, but could not find project %s/%s via API."
              [PStr g; PStr (project_name_of repo)]).
Proof.
  intros Hd Hc Hi Ha Hnone. rewrite (do_repo_copied _ _ _ _ _ _ _ _ Hd Hc).
  unfold after_copy, imported_project. unfold bind at 1. unfold bind at 1.
  rewrite import_repo_eq, Hi. cbv zeta beta iota. cbn [negb].
  unfold bind at 1. unfold get_gitlab_project, bind at 1, ext.
  cbn [os log trace refs_remotes_path]. rewrite Ha.
  unfold ret at 1. cbv beta iota.
  assert (List.find
            (fun p => String.eqb (name p) (project_name_of repo)
                      && String.eqb (namespace_name p) g) ps = None) as ->.
  { pose proof (find_first
                  (fun p => String.eqb (name p) (project_name_of repo)
                            && String.eqb (namespace_name p) g) ps) as H.
    destruct (List.find _ ps) as [p|]; [|reflexivity].
    destruct H as (l1 & l2 & -> & Hp & _).
    apply project_test_spec in Hp.
    exfalso. apply (Hnone p); [|exact Hp].
    apply in_or_app. right. now left. }
  eexists. split; [reflexivity|]. repeat split.
Qed.

(** X9.  [do_repo] returns a true value only as [True], and only after
    all of this: the destination did not exist, the copy with the change
    of owner and the move of the hooks went through, the import command
    exited with status 0, and the listing of the API had a project with
    the repo's project name in the group. *)
Theorem success_means_imported self cp repo g st mh w r w' :
  do_repo self cp repo g st mh w = (Ret r, w') ->
  truthy r = true ->
  r = PBool true /\
  os_path_exists (dest_path_of cp repo) (os w) = false /\
  exists w1 out s2 ps s3 proj,
    copy_block self repo (dest_path_of cp repo) mh
      (logged (Log INFO "Copying %s to %s"
                   [PStr repo; PStr (dest_path_of cp repo)]) w) = (Ret tt, w1) /\
    subprocess_check_output import_cmd (os w1) = (Ret out, s2) /\
    all_projects s2 = (Ret ps, s3) /\
    In proj ps /\ is_project g (project_name_of repo) proj.
Proof.
  intros H Ht.
  destruct (os_path_exists (dest_path_of cp repo) (os w)) eqn:Hd.
  { unfold do_repo in H. revert H. mstep. rewrite Hd. mstep.
    intros [= <- _]. discriminate Ht. }
  rewrite (do_repo_unfold _ _ _ _ _ _ _ Hd) in H.
  unfold try_except in H. unfold bind at 1 in H.
  destruct (copy_block self repo (dest_path_of cp repo) mh _)
    as [[[]|e] w1] eqn:Hc.
  2:{ destruct (is_Exception e); [|discriminate H].
      destruct ((copy_failed self (dest_path_of cp repo) ;;; ret false) w1)
        as [[b|e'] w2] eqn:Hf; [|discriminate H].
      assert (b = false) as ->.
      { revert Hf. unfold bind, ret.
        destruct (copy_failed self (dest_path_of cp repo) w1) as [[[]|?] ?];
          now intros [= <- _]. }
      injection H as <- _. discriminate Ht. }
  unfold ret at 1 in H. cbv beta iota in H.
  unfold after_copy, imported_project in H.
  unfold bind at 1 in H. unfold bind at 1 in H.
  rewrite import_repo_eq in H. cbv zeta in H.
  destruct (subprocess_check_output import_cmd (os w1)) as [[out|e] s2] eqn:Hi.
  2:{ destruct (is_CalledProcessError e); [|discriminate H].
      cbn [negb] in H. unfold ret at 1 in H. cbv beta iota in H.
      injection H as <- _. discriminate Ht. }
  cbn [negb] in H. unfold bind at 1 in H.
  pose proof (get_gitlab_project_lookup g (project_name_of repo)
                (mkWorld s2
                   (Log DEBUG ("Imported repo:" +:+ Py.newline +:+ "%s")
                        [PStr out]
                    :: log (logged (Log INFO "Running: %s"
                                      [PStr (String.concat " " import_cmd)])
                                   w1))
                   (CCheckOutput import_cmd :: trace w1)
                   (refs_remotes_path w1))) as Hg.
  cbn [os] in Hg.
  destruct (all_projects s2) as [[ps|e] s3] eqn:Ha.
  2:{ rewrite Hg in H. discriminate H. }
  destruct Hg as (o & Hg & Ho). rewrite Hg in H.
  destruct o as [proj|].
  2:{ revert H. unfold bind, logger, ret. intros [= <- _]. discriminate Ht. }
  destruct Ho as (l1 & l2 & -> & Hp & _).
  assert (r = PBool true) as ->.
  { revert H. unfold bind at 1. unfold bind at 1.
    destruct (ext _ _ _) as [[commits|?] ?]; [|discriminate].
    unfold bind at 1.
    destruct (length commits <? 1)%nat; unfold logger at 1; cbv beta iota;
      unfold ret at 1; cbv beta iota; unfold bind;
      destruct (update_project_settings st proj _) as [[?|?] ?];
      try discriminate; unfold ret; now intros [= <- _]. }
  split; [reflexivity|]. split; [reflexivity|].
  exists w1, out, s2, (l1 ++ proj :: l2)%list, s3, proj.
  repeat split; try assumption; try apply Hp.
  apply in_or_app. right. now left.
Qed.

End ImportMore.

Lemma failed_import_fails_repo_witness :
  let r := do_repo (Demo.importer true true) "/srv/repositories/eng"
             "/data/repos/foo.git" "eng" [("visibility", PStr "public")] true
             (Sim.world Faults.rake_fails) in
  fst r = Ret (PBool false) /\
  head (trace (snd r)) = Some (CCheckOutput import_cmd) /\
  Sim.exists_path "/srv/repositories/eng/foo.git" (os (snd r)) = true.
Proof.
  cbv zeta.
  set (imp := Demo.importer true true).
  set (w := Sim.world Faults.rake_fails).
  rewrite (failed_import_fails_repo imp "/srv/repositories/eng"
             "/data/repos/foo.git" "eng" [("visibility", PStr "public")] true w
             (snd (copy_block imp "/data/repos/foo.git"
                     "/srv/repositories/eng/foo.git" true
                     (logged (Log INFO "Copying %s to %s"
                                [PStr "/data/repos/foo.git";
                                 PStr "/srv/repositories/eng/foo.git"]) w)))
             1 "rake aborted!"
             (os (snd (copy_block imp "/data/repos/foo.git"
                         "/srv/repositories/eng/foo.git" true w))));
    [|vm_compute; reflexivity..].
  vm_compute. repeat split.
Defined.

Lemma unrunnable_import_escapes_witness :
  fst (do_repo (Demo.importer true true) "/srv/repositories/eng"
         "/data/repos/foo.git" "eng" [("visibility", PStr "public")] true
         (Sim.world Faults.rake_missing))
    = Raise (OSError "No such file or directory").
Proof.
  set (imp := Demo.importer true true).
  set (w := Sim.world Faults.rake_missing).
  apply (unrunnable_import_escapes imp "/srv/repositories/eng"
           "/data/repos/foo.git" "eng" [("visibility", PStr "public")] true w
           (snd (copy_block imp "/data/repos/foo.git"
                   "/srv/repositories/eng/foo.git" true
                   (logged (Log INFO "Copying %s to %s"
                              [PStr "/data/repos/foo.git";
                               PStr "/srv/repositories/eng/foo.git"]) w)))
           (OSError "No such file or directory")
           (os (snd (copy_block imp "/data/repos/foo.git"
                       "/srv/repositories/eng/foo.git" true w))));
    vm_compute; reflexivity.
Defined.

Lemma unlisted_project_fails_repo_witness :
  exists w',
    do_repo (Demo.importer true true) "/srv/repositories/eng"
      "/data/repos/foo.git" "eng" [("visibility", PStr "public")] true
      (Sim.world Faults.nothing_listed) = (Ret (PBool false), w').
Proof.
  set (imp := Demo.importer true true).
  set (w := Sim.world Faults.nothing_listed).
  destruct (unlisted_project_fails_repo imp "/srv/repositories/eng"
              "/data/repos/foo.git" "eng" [("visibility", PStr "public")] true
              w
              (snd (copy_block imp "/data/repos/foo.git"
                      "/srv/repositories/eng/foo.git" true
                      (logged (Log INFO "Copying %s to %s"
                                 [PStr "/data/repos/foo.git";
                                  PStr "/srv/repositories/eng/foo.git"]) w)))
              "done"
              (os (snd (copy_block imp "/data/repos/foo.git"
                          "/srv/repositories/eng/foo.git" true w)))
              [mkProject "foo" "ops" "ops/foo" (attrs Demo.project)]
              (os (snd (copy_block imp "/data/repos/foo.git"
                          "/srv/repositories/eng/foo.git" true w))))
    as (w' & E & _); [vm_compute; reflexivity..| |eauto].
  intros q [<-|[]] [_ Hns]. discriminate Hns.
Defined.

Lemma success_means_imported_witness :
  Sim.exists_path "/srv/repositories/eng/foo.git" Demo.healthy = false /\
  exists proj, is_project "eng" "foo" proj.
Proof.
  set (imp := Demo.importer true true).
  set (w := Sim.world Demo.healthy).
  destruct (success_means_imported imp "/srv/repositories/eng"
              "/data/repos/foo.git" "eng" [("visibility", PStr "public")] true
              w (PBool true)
              (snd (do_repo imp "/srv/repositories/eng" "/data/repos/foo.git"
                      "eng" [("visibility", PStr "public")] true w)))
    as (_ & Hd & w1 & out & s2 & ps & s3 & proj & _ & _ & _ & _ & Hp);
    [vm_compute; reflexivity..|].
  split; [exact Hd|]. exists proj. exact Hp.
Defined.

(** ** More on [update_project_settings] *)

Section SettingsMore.
Context {S : Type} `{!Platform S}.
Implicit Types (w : World S) (p : Project) (sv : string * pyval).

(** A step of the staging loop, whatever it does to the project and
    however it ends, leaves everything outside the log alone; when it
    returns it has either left project and flag alone or raised the flag;
    and it never renames the project. *)
Lemma stage_setting_frame sv p c w r w' :
  stage_setting sv (p, c) w = (r, w') ->
  same_outside w w' /\
  forall p1 c1, r = Ret (p1, c1) ->
    ((p1 = p /\ c1 = c) \/ c1 = true) /\
    name p1 = name p /\ namespace_name p1 = namespace_name p /\
    path_with_namespace p1 = path_with_namespace p.
Proof.
  destruct sv as [k v].
  unfold stage_setting, getattr, visibility_level_of, same_outside,
    bind, logger, ret, raise, setattr.
  repeat case_match; intros; simplify_eq; cbn;
    (split; [repeat split|intros; simplify_eq; cbn; tauto]).
Qed.

Lemma staging_frame (l : list (string * pyval)) :
  forall p c w r w',
  for_fold l stage_setting (p, c) w = (r, w') ->
  same_outside w w' /\
  forall p1 c1, r = Ret (p1, c1) ->
    ((p1 = p /\ c1 = c) \/ c1 = true) /\
    name p1 = name p /\ namespace_name p1 = namespace_name p /\
    path_with_namespace p1 = path_with_namespace p.
Proof.
  induction l as [|sv l IH]; intros p c w r w' H.
  - injection H as <- <-. split; [apply same_outside_refl|].
    intros p1 c1 [= <- <-]. tauto.
  - rewrite for_fold_cons in H. unfold bind in H.
    destruct (stage_setting sv (p, c) w) as [[[p' c']|e] w0] eqn:E.
    + apply stage_setting_frame in E as [Hs E].
      destruct (E _ _ eq_refl) as (Hflag & Hn1 & Hn2 & Hn3).
      apply IH in H as [Hs' H].
      split; [eapply same_outside_trans; eassumption|].
      intros p1 c1 ->. destruct (H _ _ eq_refl) as (Hflag' & Hm1 & Hm2 & Hm3).
      split; [|repeat split; congruence].
      destruct Hflag' as [[-> ->] | ->]; [|now right].
      destruct Hflag as [[-> ->] | ->]; [left|right]; tauto.
    + apply stage_setting_frame in E as [Hs _].
      injection H as <- <-. split; [exact Hs|]. intros ? ? [=].
Qed.

(** X10.  Whenever [update_project_settings] returns, it has made at
    most one call outside, a save of the project it returns; and when it
    has made none, nothing outside has changed and the project is
    returned as it was given. *)
Theorem one_save_or_none (l : list (string * pyval)) p w p1 w1 :
  update_project_settings l p w = (Ret p1, w1) ->
  (trace w1 = trace w /\ os w1 = os w /\ p1 = p) \/
  (trace w1 = CSave p1 :: trace w /\
   os w1 = snd (project_save p1 (os w))).
Proof.
  rewrite update_project_settings_unfold.
  destruct (for_fold l stage_setting (p, false) _) as [[[p' c']|e] wf] eqn:E;
    [|discriminate].
  apply staging_frame in E as [(Ho & Ht & _) E].
  cbn [os trace logged] in Ho, Ht.
  destruct (E _ _ eq_refl) as (Hflag & _). cbn [fst snd].
  destruct (save_changes p' c' wf) as [[[]|e] w2] eqn:Hs; [|discriminate].
  intros [= <- <-]. revert Hs. unfold save_changes.
  destruct c'; cbn [negb].
  - unfold bind, logger, try_except, ext, ret.
    cbn [os log trace refs_remotes_path]. rewrite Ho.
    destruct (project_save p' (os w)) as [[[]|e] s'];
      cbn [os log trace refs_remotes_path snd].
    + intros [= <-]. right. cbn. now rewrite Ht.
    + destruct (is_Exception e); [|discriminate].
      intros [= <-]. right. cbn. now rewrite Ht.
  - unfold logger. intros [= <-]. left. cbn.
    destruct Hflag as [[-> _] | ?]; [|discriminate]. tauto.
Qed.

(** X11.  For a mapping without repeated keys, when
    [update_project_settings] returns, the project has (up to [==])
    every value that the mapping asks for, every attribute that no entry
    asks for is as it was, and the project's name, namespace and path
    are as they were. *)
Theorem settings_take_effect (l : list (string * pyval)) p w p1 w1 :
  List.NoDup (map fst l) ->
  update_project_settings l p w = (Ret p1, w1) ->
  (forall sv ax, In sv l -> wanted sv = Some ax -> has_value p1 ax) /\
  (forall a, (forall sv x, In sv l -> wanted sv <> Some (a, x)) ->
             attrs p1 !! a = attrs p !! a) /\
  name p1 = name p /\ namespace_name p1 = namespace_name p /\
  path_with_namespace p1 = path_with_namespace p.
Proof.
  intros Hnd H. apply update_project_settings_inv in H as (c & wf & H).
  split; [|split].
  - intros sv ax Hin. now apply (staging_done l Hnd _ _ _ _ _ _ H sv Hin).
  - intros a Ha. now apply (staging_keeps l a Ha _ _ _ _ _ _ H).
  - apply staging_frame in H as [_ H]. now destruct (H _ _ eq_refl).
Qed.

(** X12.  A mapping in which no entry asks for anything (no [visibility]
    key, and only unknown keys and flags that are [None]) is a no-op:
    the project is not even read, nothing is called, and two records
    are logged. *)
Theorem nothing_asked_nothing_done (l : list (string * pyval)) p w :
  (forall sv, In sv l -> fst sv <> "visibility" /\ wanted sv = None) ->
  update_project_settings l p w =
    (Ret p,
     logged (Log INFO "No changes to project settings." [])
       (logged (Log INFO "Updating project settings on %s"
                    [PStr (path_with_namespace p)]) w)).
Proof.
  intros Hl. rewrite update_project_settings_unfold.
  assert (forall w0, for_fold l stage_setting (p, false) w0
                     = (Ret (p, false), w0)) as ->; [|reflexivity].
  induction l as [|[k v] l IH]; intros w0; [reflexivity|].
  rewrite for_fold_cons.
  destruct (Hl (k, v) (or_introl eq_refl)) as [Hk Hw].
  rewrite (bind_Ret _ _ _ _ _ (stage_setting_skipped k v p false w0 Hw Hk)).
  apply IH. intros sv Hin. apply Hl. now right.
Qed.

(** X13.  When the mapping has a [visibility] entry whose value is not
    one of [private], [internal], [public], the call raises, and it
    raises before any remote write: nothing outside has been called or
    changed, whatever the other entries staged. *)
Theorem bad_visibility_raises_before_save (l : list (string * pyval)) v p w :
  In ("visibility", v) l ->
  wanted ("visibility", v) = None ->
  exists e w',
    update_project_settings l p w = (Raise e, w') /\
    trace w' = trace w /\ os w' = os w.
Proof.
  intros Hin Hv. rewrite update_project_settings_unfold.
  set (w0 := logged _ w).
  assert (forall p0 c0 w1, exists e w',
            for_fold l stage_setting (p0, c0) w1 = (Raise e, w')) as Hf.
  { clear w0. induction l as [|sv l IH]; intros p0 c0 w1; [destruct Hin|].
    rewrite for_fold_cons. unfold bind.
    destruct (stage_setting sv (p0, c0) w1) as [[[p' c']|e] w'] eqn:E;
      [|eauto].
    destruct Hin as [->|Hin]; [|now apply IH].
    apply stage_setting_done in E as (Hst & _). exfalso.
    now apply Hst. }
  destruct (Hf p false w0) as (e & w' & E). rewrite E.
  exists e, w'. split; [reflexivity|].
  apply staging_frame in E as [(Ho & Ht & _) _].
  subst w0. cbn in Ho, Ht. tauto.
Qed.

End SettingsMore.

Lemma one_save_or_none_witness :
  let r := update_project_settings [("visibility", PStr "public")]
             Demo.project (Sim.world Demo.healthy) in
  trace (snd r) =
    [CSave (setattr Demo.project "visibility_level" (PInt 20))].
Proof.
  cbv zeta.
  destruct (one_save_or_none [("visibility", PStr "public")] Demo.project
              (Sim.world Demo.healthy)
              (setattr Demo.project "visibility_level" (PInt 20))
              (snd (update_project_settings [("visibility", PStr "public")]
                      Demo.project (Sim.world Demo.healthy))))
    as [(_ & _ & E)|[E _]]; [vm_compute; reflexivity| |exact E].
  vm_compute in E. discriminate E.
Defined.

Lemma settings_take_effect_witness :
  has_value (setattr (setattr Demo.project "visibility_level" (PInt 20))
                     "issues_enabled" (PBool false))
            ("issues_enabled", PBool false).
Proof.
  destruct (settings_take_effect
              [("visibility", PStr "public"); ("issues", PBool false)]
              Demo.project (Sim.world Demo.healthy)
              (setattr (setattr Demo.project "visibility_level" (PInt 20))
                       "issues_enabled" (PBool false))
              (snd (update_project_settings
                      [("visibility", PStr "public"); ("issues", PBool false)]
                      Demo.project (Sim.world Demo.healthy))))
    as (H & _).
  - repeat constructor; simpl; intuition discriminate.
  - vm_compute. reflexivity.
  - apply (H ("issues", PBool false)); [right; left|]; reflexivity.
Defined.

Lemma nothing_asked_nothing_done_witness :
  fst (update_project_settings [("wiki", PNone); ("colour", PStr "red")]
         (mkProject "foo" "eng" "eng/foo" ∅) (Sim.world Demo.save_refused))
    = Ret (mkProject "foo" "eng" "eng/foo" ∅).
Proof.
  rewrite (nothing_asked_nothing_done
             [("wiki", PNone); ("colour", PStr "red")]
             (mkProject "foo" "eng" "eng/foo" ∅)
             (Sim.world Demo.save_refused)); [reflexivity|].
  intros sv [<-|[<-|[]]]; split; try discriminate; reflexivity.
Defined.

Lemma bad_visibility_raises_before_save_witness :
  exists e w',
    update_project_settings
      [("issues", PBool false); ("visibility", PStr "secret")]
      Demo.project (Sim.world Demo.healthy) = (Raise e, w') /\
    trace w' = [] /\ os w' = Demo.healthy.
Proof.
  apply (bad_visibility_raises_before_save
           [("issues", PBool false); ("visibility", PStr "secret")]
           (PStr "secret") Demo.project (Sim.world Demo.healthy)).
  - right. left. reflexivity.
  - reflexivity.
Defined.

(** ** More on configuration discovery and [__init__] *)

Section ConfigMore.
Context {S : Type} `{!Platform S}.
Implicit Types (w : World S).

(** A lookup block only reads the document and writes the log. *)
Lemma lookup_block_frame (conf : json) (k1 k2 k3 fmt_found fmt_default : string)
    (dflt : json) w r w' :
  try_except
    (g <- getitem conf k1 ;;
     r <- getitem g k2 ;;
     x <- getitem r k3 ;;
     logger INFO fmt_found [json_arg x] ;;;
     ret x)
    is_KeyError
    (fun _ => logger WARNING fmt_default [json_arg dflt] ;;; ret dflt) w
  = (r, w') ->
  same_outside w w'.
Proof.
  unfold try_except, bind, getitem, logger, ret, raise, same_outside.
  repeat case_match; intros; simplify_eq; cbn; repeat split.
Qed.

(** A member on the way that is present and not an object makes the
    block raise [TypeError], which its [except KeyError] lets through. *)
Lemma lookup_block_type_error (conf : json)
    (k1 k2 k3 fmt_found fmt_default : string) (dflt : json) w :
  object_or_absent (Some conf) && object_or_absent (dig conf [k1])
    && object_or_absent (dig conf [k1; k2]) = false ->
  try_except
    (g <- getitem conf k1 ;;
     r <- getitem g k2 ;;
     x <- getitem r k3 ;;
     logger INFO fmt_found [json_arg x] ;;;
     ret x)
    is_KeyError
    (fun _ => logger WARNING fmt_default [json_arg dflt] ;;; ret dflt) w
  = (Raise TypeError, w).
Proof.
  unfold try_except, bind, getitem, logger, ret, raise.
  destruct conf as [| | | | |fs]; try reflexivity. cbn.
  destruct (assoc k1 fs) as [g|]; [|discriminate].
  destruct g as [| | | | |gs]; try reflexivity. cbn.
  destruct (assoc k2 gs) as [r|]; [|discriminate].
  destruct r; try reflexivity. discriminate.
Qed.

(** Discovery leaves one call on the trace and the world of the
    command. *)
Lemma get_config_frame (gitlab_ctl_path : string) w :
  trace (snd (_get_config gitlab_ctl_path w)) =
    CCheckOutput [gitlab_ctl_path; "show-config"] :: trace w /\
  os (snd (_get_config gitlab_ctl_path w)) =
    snd (subprocess_check_output [gitlab_ctl_path; "show-config"] (os w)).
Proof.
  destruct (_get_config gitlab_ctl_path w) as [r w'] eqn:E. cbn [snd].
  revert E. unfold _get_config. cbv zeta.
  unfold bind at 1. unfold logger at 1. cbv iota beta.
  unfold bind at 1. unfold check_output, ext. cbn [os log trace].
  destruct (subprocess_check_output [gitlab_ctl_path; "show-config"] (os w))
    as [[text|e] s1]; [|intros [= <- <-]; split; reflexivity].
  unfold bind at 1. unfold logger at 1. cbv iota beta.
  unfold bind at 1.
  destruct (json_loads text) as [conf|]; [|intros [= <- <-]; split; reflexivity].
  unfold ret at 1. cbv iota beta. cbn [snd].
  unfold bind at 1.
  match goal with
  | |- context [try_except _ _ _ ?w0] =>
      assert (trace w0 = CCheckOutput [gitlab_ctl_path; "show-config"] :: trace w
              /\ os w0 = s1) as [Ht Ho] by (split; reflexivity);
      generalize dependent w0
  end.
  intros w2 Ht Ho.
  destruct (try_except _ _ _ w2) as [[path|e] w3] eqn:E1;
    apply lookup_block_frame in E1 as (Ho3 & Ht3 & _);
    [|intros [= <- <-]; split; congruence].
  unfold bind at 1.
  destruct (try_except _ _ _ w3) as [[user|e] w4] eqn:E2;
    apply lookup_block_frame in E2 as (Ho4 & Ht4 & _);
    [|intros [= <- <-]; split; congruence].
  unfold bind at 1.
  destruct (try_except _ _ _ w4) as [[group|e] w5] eqn:E3;
    apply lookup_block_frame in E3 as (Ho5 & Ht5 & _);
    intros [= <- <-]; split; congruence.
Qed.

(** X14.  Discovery calls the configuration command once and nothing
    else, however it ends: the trace grows by that one call and the
    outside world is the one the command left. *)
Theorem get_config_calls_once (gitlab_ctl_path : string) w :
  trace (snd (_get_config gitlab_ctl_path w)) =
    CCheckOutput [gitlab_ctl_path; "show-config"] :: trace w /\
  os (snd (_get_config gitlab_ctl_path w)) =
    snd (subprocess_check_output [gitlab_ctl_path; "show-config"] (os w)).
Proof. apply get_config_frame. Qed.

(** X15.  When the command prints valid JSON that is not of the
    expected shape (the document, or a [gitlab], [gitlab-rails] or [user]
    member that is present, is not an object), discovery ends in a
    [TypeError]: the defaults are not used. *)
Theorem misshaped_config_is_type_error (gitlab_ctl_path : string) w text s1 conf :
  subprocess_check_output [gitlab_ctl_path; "show-config"] (os w)
    = (Ret text, s1) ->
  json_loads text = Some conf ->
  well_shaped conf = false ->
  fst (_get_config gitlab_ctl_path w) = Raise TypeError.
Proof.
  intros Hc Hl Hw.
  unfold _get_config. cbv zeta.
  unfold bind at 1. unfold logger at 1. cbv iota beta.
  unfold bind at 1. unfold check_output, ext. cbn [os log trace].
  rewrite Hc.
  unfold bind at 1. unfold logger at 1. cbv iota beta.
  unfold bind at 1. rewrite Hl. unfold ret at 1. cbv iota beta.
  unfold bind at 1.
  destruct (object_or_absent (Some conf)
            && object_or_absent (dig conf ["gitlab"])
            && object_or_absent (dig conf ["gitlab"; "gitlab-rails"])) eqn:H1.
  - apply andb_true_iff in H1 as [H1 Hr]. apply andb_true_iff in H1 as [Ho Hg].
    match goal with
    | |- context [try_except _ _ _ ?w0] =>
        destruct (lookup_block conf "gitlab" "gitlab-rails"
                    "gitlab_shell_repos_path"
                    "Found repos path from config as: %s"
                    "Could not find gitlab_shell_repos_path in config, using default of: %s"
                    (JStr default_repos_path) w0) as [r1 ->];
          [now destruct conf|assumption..|]
    end.
    unfold bind at 1.
    rewrite lookup_block_type_error; [reflexivity|].
    rewrite Ho, Hg. cbn [andb].
    destruct conf; try discriminate. unfold well_shaped in Hw.
    now rewrite Hg, Hr in Hw.
  - now rewrite lookup_block_type_error.
Qed.

Lemma init_unfold (url apikey ctl : string) rd rof ibl irr w :
  __init__ url apikey ctl rd rof ibl irr w =
    match gitlab_auth url apikey (os w) with
    | (Raise e, s1) =>
        (Raise e,
         mkWorld s1 (Log DEBUG "Connecting to GitLab" [] :: log w)
                 (CAuth url apikey :: trace w) (refs_remotes_path w))
    | (Ret u, s1) =>
        match _get_config ctl
                (mkWorld s1
                   (Log INFO "Connected to GitLab as %s" [PStr u]
                    :: Log DEBUG "Connecting to GitLab" [] :: log w)
                   (CAuth url apikey :: trace w) (refs_remotes_path w)) with
        | (Raise e, w2) => (Raise e, w2)
        | (Ret (user, group, path), w2) =>
            match pwd_getpwnam_uid user (os w2) with
            | None =>
                (Raise (SystemExit (PStr
                   "Could not find uid for user '%s'; this script currently only supports a local gitlab user.")),
                 w2)
            | Some uid =>
                match grp_getgrnam_gid group (os w2) with
                | None =>
                    (Raise (SystemExit (PStr
                       "Could not find gid for group '%s'; this script currently only supports a local gitlab group.")),
                     w2)
                | Some gid =>
                    (Ret (mkImporter rof ibl irr uid gid
                            (match rd with
                             | Some d => JStr d
                             | None => path
                             end)),
                     logged (Log INFO "Git repo ownership: %s:%s (%d:%d)"
                                 [json_arg user; json_arg group; PInt uid;
                                  PInt gid]) w2)
                end
            end
        end
    end.
Proof.
  unfold __init__, bind, logger, ext, ask, ret, raise, logged.
  cbn [os log trace refs_remotes_path].
  destruct (gitlab_auth url apikey (os w)) as [[u|e] s1]; [|reflexivity].
  cbn [os log trace refs_remotes_path].
  destruct (_get_config ctl _) as [[[[user group] path]|e] w2]; [|reflexivity].
  destruct (pwd_getpwnam_uid user (os w2)); [|reflexivity].
  destruct (grp_getgrnam_gid group (os w2)); reflexivity.
Qed.

(** X16.  When [__init__] returns, the importer has the three flags it
    was given and, when a storage directory was given, that directory
    instead of the configured one; the configuration command has been
    run all the same: the calls made are the log-in and that command. *)
Theorem init_keeps_arguments (url apikey ctl : string) rd rof ibl irr w self w' :
  __init__ url apikey ctl rd rof ibl irr w = (Ret self, w') ->
  remove_on_fail self = rof /\
  ignore_broken_links self = ibl /\
  ignore_refs_remotes self = irr /\
  (forall d, rd = Some d -> repos_dir self = JStr d) /\
  trace w' = CCheckOutput [ctl; "show-config"] :: CAuth url apikey :: trace w.
Proof.
  rewrite init_unfold.
  destruct (gitlab_auth url apikey (os w)) as [[u|e] s1]; [|discriminate].
  match goal with
  | |- context [_get_config ctl ?w0] =>
      destruct (get_config_frame ctl w0) as [Ht _];
      destruct (_get_config ctl w0) as [[[[user group] path]|e] w2];
        [|discriminate]
  end.
  destruct (pwd_getpwnam_uid user (os w2)); [|discriminate].
  destruct (grp_getgrnam_gid group (os w2)); [|discriminate].
  intros [= <- <-]. cbn in *. repeat split; try assumption.
  now intros d ->.
Qed.

(** X17.  When the configured user or group has no entry in the local
    account databases, the main program exits with a message, so with
    status 1, right after discovery: no repo path is looked at. *)
Theorem unknown_account_is_fatal
    (url apikey ctl : string) rd rof ibl irr grp paths args mh w u s1
    user group path w2 :
  gitlab_auth url apikey (os w) = (Ret u, s1) ->
  _get_config ctl
    (mkWorld s1
       (Log INFO "Connected to GitLab as %s" [PStr u]
        :: Log DEBUG "Connecting to GitLab" [] :: log w)
       (CAuth url apikey :: trace w) (refs_remotes_path w))
    = (Ret (user, group, path), w2) ->
  pwd_getpwnam_uid user (os w2) = None \/
  grp_getgrnam_gid group (os w2) = None ->
  exists msg,
    main url apikey ctl rd rof ibl irr grp paths args mh w
      = (Raise (SystemExit (PStr msg)), w2) /\
    exit_status (@Raise unit (SystemExit (PStr msg))) = 1.
Proof.
  intros Ha Hc Hn. unfold main. unfold bind at 1.
  rewrite init_unfold, Ha, Hc.
  destruct (pwd_getpwnam_uid user (os w2)) as [uid|];
    [|eexists; split; reflexivity].
  destruct Hn as [Hn|Hn]; [discriminate|]. rewrite Hn.
  eexists; split; reflexivity.
Qed.

End ConfigMore.

Lemma misshaped_config_is_type_error_witness :
  fst (_get_config "/bin/gitlab-ctl" (Sim.world (Demo.server (0, "[]") None)))
    = Raise TypeError.
Proof.
  apply (misshaped_config_is_type_error "/bin/gitlab-ctl"
           (Sim.world (Demo.server (0, "[]") None)) "[]"
           (Demo.server (0, "[]") None) (JArr []));
    reflexivity.
Defined.

Lemma init_keeps_arguments_witness :
  let r := __init__ "http://127.0.0.1" "token" "/bin/gitlab-ctl"
             (Some "/mnt/repos") true false true (Sim.world Demo.healthy) in
  trace (snd r) =
    [CCheckOutput Demo.ctl_cmd; CAuth "http://127.0.0.1" "token"].
Proof.
  cbv zeta.
  set (r := __init__ "http://127.0.0.1" "token" "/bin/gitlab-ctl"
              (Some "/mnt/repos") true false true (Sim.world Demo.healthy)).
  destruct (init_keeps_arguments "http://127.0.0.1" "token" "/bin/gitlab-ctl"
              (Some "/mnt/repos") true false true (Sim.world Demo.healthy)
              (mkImporter true false true 998 997 (JStr "/mnt/repos"))
              (snd r)) as (_ & _ & _ & _ & Ht);
    [vm_compute; reflexivity|exact Ht].
Defined.

Lemma unknown_account_is_fatal_witness :
  exists msg,
    fst (main "http://127.0.0.1" "token" "/bin/gitlab-ctl" None false true
              true "eng" ["/data/repos/foo.git"] (Demo.args None) true
              (Sim.world (Demo.server (0, "{}") None)))
      = Raise (SystemExit (PStr msg)).
Proof.
  set (w := Sim.world (Demo.server (0, "{}") None)).
  destruct (unknown_account_is_fatal "http://127.0.0.1" "token"
              "/bin/gitlab-ctl" None false true true "eng"
              ["/data/repos/foo.git"] (Demo.args None) true w "root"
              (Demo.server (0, "{}") None)
              (JStr "git") (JStr "git") (JStr default_repos_path)
              (snd (_get_config "/bin/gitlab-ctl"
                      (mkWorld (Demo.server (0, "{}") None)
                         [Log INFO "Connected to GitLab as %s" [PStr "root"];
                          Log DEBUG "Connecting to GitLab" []]
                         [CAuth "http://127.0.0.1" "token"] None))))
    as (msg & E & _).
  - reflexivity.
  - vm_compute. reflexivity.
  - left. reflexivity.
  - exists msg. now rewrite E.
Defined.

(** ** The settings of the command line, the callback, names and owners *)

Lemma fmap_is_map {A B} (f : A -> B) (l : list A) : f <$> l = map f l.
Proof. induction l as [|x l IH]; [reflexivity|]. cbn. now rewrite <- IH. Qed.

Lemma keys_of_map (m : gmap string string) :
  List.NoDup (map fst (map_to_list m)) /\
  forall k, In k (map fst (map_to_list m)) <-> is_Some (m !! k).
Proof.
  split.
  - rewrite <- fmap_is_map. apply NoDup_ListNoDup.
    apply NoDup_fst_map_to_list.
  - intros flag. rewrite in_map_iff. split.
    + intros ([k a] & <- & Hin).
      apply list_elem_of_In, elem_of_map_to_list in Hin. now exists a.
    + intros [a Ha]. exists (flag, a). split; [reflexivity|].
      now apply list_elem_of_In, elem_of_map_to_list.
Qed.

(** X18.  The mapping built by [parse_args] has no key twice; it always
    has the key [visibility], with [None] when the option was not given;
    and it has every flag of [BOOLEAN_SETTING_NAMES], with [True] when
    the flag was enabled, [False] when it was disabled, and [None]
    otherwise. *)
Theorem parsed_settings_shape (args : Args) :
  List.NoDup (map fst (settings_of_args args)) /\
  In ("visibility",
      match arg_visibility args with Some v => PStr v | None => PNone end)
     (settings_of_args args) /\
  forall flag, is_Some (BOOLEAN_SETTING_NAMES !! flag) ->
    In (flag,
        if arg_enable args flag then PBool true
        else if arg_disable args flag then PBool false
        else PNone)
       (settings_of_args args).
Proof.
  unfold settings_of_args.
  destruct (keys_of_map BOOLEAN_SETTING_NAMES) as [Hnd Hk]. revert Hnd Hk.
  generalize (map fst (map_to_list BOOLEAN_SETTING_NAMES)) as keys.
  intros keys Hnd Hk. split; [|split].
  - rewrite map_cons, map_map. cbn [fst]. rewrite map_id.
    constructor; [|exact Hnd].
    intros Hin. apply Hk in Hin as [a Ha].
    apply boolean_setting_cases in Ha. intuition discriminate.
  - now left.
  - intros flag Hf. right. apply Hk in Hf.
    now apply (in_map (fun name => (name, _)) _ flag).
Qed.

Section CallbackMore.
Context {S : Type} `{!Platform S}.
Implicit Types (self : Importer) (w : World S).

Lemma ignore_item_no_refs self dirname item (skip : list string) w :
  ignore_refs_remotes self = false ->
  exists w',
    ignore_item self dirname item skip w =
      (Ret (if ignore_broken_links self
               && negb (os_path_exists (Py.os_path_join dirname item) (os w))
            then (skip ++ [item])%list else skip), w')
    /\ same_outside w w'.
Proof.
  intros Hr. unfold ignore_item, bind, ask, ret, logger, same_outside.
  rewrite Hr.
  destruct (ignore_broken_links self); cbn [andb];
    [destruct (os_path_exists (Py.os_path_join dirname item) (os w));
       cbn [negb]|];
    eexists; (split; [reflexivity|]); repeat split.
Qed.

(** X19.  With the refs-remotes flag off, the callback skips exactly the
    items that do not exist when the broken-link flag is on, and nothing
    when that flag is off too; it calls nothing and only writes the
    log.  The stashed path is not read, so it need not be set. *)
Theorem broken_links_filtered self dirname items w :
  ignore_refs_remotes self = false ->
  exists w',
    ignore_files_callback self dirname items w =
      (Ret (List.filter
              (fun item =>
                 ignore_broken_links self
                 && negb (os_path_exists (Py.os_path_join dirname item)
                                         (os w)))
              items), w')
    /\ same_outside w w'.
Proof.
  intros Hr. unfold ignore_files_callback.
  set (test := fun item =>
         ignore_broken_links self
         && negb (os_path_exists (Py.os_path_join dirname item) (os w))).
  assert (forall acc w0, os w0 = os w -> exists w',
            for_fold items (ignore_item self dirname) acc w0 =
              (Ret (acc ++ List.filter test items)%list, w')
            /\ same_outside w0 w') as H.
  { induction items as [|item items IH]; intros acc w0 Ho.
    - exists w0. rewrite app_nil_r.
      split; [reflexivity|apply same_outside_refl].
    - destruct (ignore_item_no_refs self dirname item acc w0 Hr)
        as (w1 & E1 & Hs1).
      rewrite Ho in E1. fold (test item) in E1.
      destruct (IH (if test item then (acc ++ [item])%list else acc) w1)
        as (w' & E & Hs'); [destruct Hs1 as (-> & _); exact Ho|].
      exists w'. split; [|eapply same_outside_trans; eassumption].
      rewrite for_fold_cons, (bind_Ret _ _ _ _ _ E1), E. cbn [List.filter].
      destruct (test item); [|reflexivity].
      now rewrite <- app_assoc. }
  destruct (H [] w eq_refl) as (w' & E & Hs). exists w'. now split.
Qed.

End CallbackMore.

Lemma basename_app (p t : string) :
  Py.has_slash t = false ->
  Py.os_path_basename (p +:+ t) = Py.os_path_basename p +:+ t.
Proof.
  intros Ht. induction p as [|c p IH].
  - rewrite !app_empty_l. destruct t as [|d t]; [reflexivity|].
    cbn [Py.os_path_basename]. cbn [Py.has_slash] in Ht.
    apply orb_false_iff in Ht as [Hd Ht]. now rewrite Ht, Hd.
  - rewrite app_cons. cbn [Py.os_path_basename].
    rewrite has_slash_app, Ht, orb_false_r.
    destruct (Py.has_slash p); [exact IH|].
    now destruct (Ascii.eqb c "/").
Qed.

(** X20.  The repo name that [do_repo] derives always ends in [.git],
    and a path without the suffix and the same path with it give the
    same names: they have the same project name and the same
    destination, so importing the one after the other collides. *)
Theorem suffix_makes_no_difference (create_path repo_path : string) :
  Py.endswith (fst (repo_names repo_path)) ".git" = true /\
  (Py.endswith (Py.os_path_basename repo_path) ".git" = false ->
   project_name_of (repo_path +:+ ".git") = project_name_of repo_path /\
   dest_path_of create_path (repo_path +:+ ".git")
     = dest_path_of create_path repo_path).
Proof.
  split.
  - rewrite repo_name_is_project_dot_git. apply endswith_app.
  - intros He.
    assert (repo_names (repo_path +:+ ".git") = repo_names repo_path) as E.
    { unfold repo_names. rewrite basename_app by reflexivity.
      rewrite endswith_app, He. cbn [negb]. now rewrite re_sub_app. }
    unfold project_name_of, dest_path_of. now rewrite E.
Qed.

Lemma broken_links_filtered_witness :
  fst (ignore_files_callback (Demo.importer true false) "/data/repos/foo.git"
         ["HEAD"; "dangling"; "refs"] (Sim.world Demo.healthy))
    = Ret ["dangling"].
Proof.
  destruct (broken_links_filtered (Demo.importer true false)
              "/data/repos/foo.git" ["HEAD"; "dangling"; "refs"]
              (Sim.world Demo.healthy)) as (w' & E & _); [reflexivity|].
  rewrite E. reflexivity.
Defined.

Lemma suffix_makes_no_difference_witness :
  dest_path_of "/srv/repositories/eng" ("/data/repos/foo" +:+ ".git")
    = dest_path_of "/srv/repositories/eng" "/data/repos/foo".
Proof.
  destruct (suffix_makes_no_difference "/srv/repositories/eng"
              "/data/repos/foo") as [_ H].
  apply H. reflexivity.
Defined.

(** ** Owners *)

Section OwnersMore.
Context {S : Type} `{!Platform S}.
Implicit Types (self : Importer) (w : World S).

(** A loop of [chown] calls that returns has called [chown] for every
    element, and all it has put on the trace are [chown] calls with the
    same owner. *)
Lemma chown_each_trace {A} (l : list A) (path : A -> string) (uid gid : Z) :
  forall w w',
  for_each l (fun x => chown (path x) uid gid) w = (Ret tt, w') ->
  exists added,
    trace w' = (added ++ trace w)%list /\
    log w' = log w /\
    (forall x, In x l -> In (CChown (path x) uid gid) added) /\
    (forall c, In c added -> exists q, c = CChown q uid gid).
Proof.
  unfold for_each.
  induction l as [|x l IH]; intros w w' H.
  - injection H as <-. exists []. repeat split; intros ? [].
  - rewrite for_fold_cons in H. unfold bind in H.
    destruct (chown (path x) uid gid w) as [[[]|e] w1] eqn:E; [|discriminate].
    unfold chown, ext in E.
    destruct (os_chown (path x) uid gid (os w)) as [r s1].
    injection E as -> <-.
    apply IH in H as (added & Ht & Hl & Hin & Hall).
    cbn [trace log] in Ht, Hl.
    exists (added ++ [CChown (path x) uid gid])%list.
    rewrite <- app_assoc. repeat split; try assumption.
    + intros y [<-|Hy]; apply in_or_app; [right; now left|left; auto].
    + intros c Hc. apply in_app_or in Hc as [Hc|[<-|[]]]; eauto.
Qed.

(** X21.  When the change of owner returns, [chown] has been called
    for the destination and for every directory and file name that
    [os.walk] listed under it, each joined to its root; every call it
    made is a [chown] to the git user and group, and nothing is
    logged. *)
Theorem chown_tree_covers_walk self dest w w' :
  chown_tree self dest w = (Ret tt, w') ->
  exists added,
    trace w' = (added ++ trace w)%list /\
    log w' = log w /\
    In (CChown dest (git_uid self) (git_gid self)) added /\
    (forall root dirs files momo,
       In (root, dirs, files)
          (os_walk dest
             (snd (os_chown dest (git_uid self) (git_gid self) (os w)))) ->
       In momo (dirs ++ files) ->
       In (CChown (Py.os_path_join root momo) (git_uid self) (git_gid self))
          added) /\
    (forall c, In c added ->
       exists q, c = CChown q (git_uid self) (git_gid self)).
Proof.
  unfold chown_tree. unfold bind at 1. unfold chown at 1, ext.
  destruct (os_chown dest (git_uid self) (git_gid self) (os w))
    as [[[]|e] s1]; [|discriminate].
  cbn [snd]. unfold bind at 1, ask at 1. cbn [os].
  set (w1 := mkWorld s1 _ _ _).
  assert (trace w1 =
            ([CChown dest (git_uid self) (git_gid self)] ++ trace w)%list
          /\ log w1 = log w) as [Ht1 Hl1] by (split; reflexivity).
  clearbody w1. revert w1 Ht1 Hl1.
  generalize (os_walk dest s1) as tree. unfold for_each at 1.
  intros tree.
  assert (forall w1 w2,
            for_fold tree
              (fun x (_ : unit) =>
                 (let '(root, dirs, files) := x in
                  for_each dirs
                    (fun momo =>
                       chown (Py.os_path_join root momo) (git_uid self)
                             (git_gid self)) ;;;
                  for_each files
                    (fun momo =>
                       chown (Py.os_path_join root momo) (git_uid self)
                             (git_gid self)))) tt w1 = (Ret tt, w2) ->
            exists added,
              trace w2 = (added ++ trace w1)%list /\
              log w2 = log w1 /\
              (forall root dirs files momo,
                 In (root, dirs, files) tree -> In momo (dirs ++ files) ->
                 In (CChown (Py.os_path_join root momo) (git_uid self)
                            (git_gid self)) added) /\
              (forall c, In c added ->
                 exists q, c = CChown q (git_uid self) (git_gid self))) as Hloop.
  { induction tree as [|[[root dirs] files] tree IH]; intros w1 w2 H.
    - injection H as <-. exists []. repeat split; intros; contradiction.
    - rewrite for_fold_cons in H. unfold bind at 1 in H. unfold bind at 1 in H.
      destruct (for_each dirs _ w1) as [[[]|e] wd] eqn:Ed; [|discriminate].
      destruct (for_each files _ wd) as [[[]|e] wf] eqn:Ef; [|discriminate].
      apply (chown_each_trace dirs (Py.os_path_join root)) in Ed
        as (a1 & Ht1 & Hl1 & Hin1 & Hall1).
      apply (chown_each_trace files (Py.os_path_join root)) in Ef
        as (a2 & Ht2 & Hl2 & Hin2 & Hall2).
      apply IH in H as (a3 & Ht3 & Hl3 & Hin3 & Hall3).
      exists (a3 ++ a2 ++ a1)%list. split; [|split; [|split]].
      + rewrite Ht3, Ht2, Ht1. now rewrite !app_assoc.
      + congruence.
      + intros r d f momo [[= <- <- <-]|Hin] Hm.
        * apply in_app_or in Hm as [Hm|Hm]; apply in_or_app; right;
            apply in_or_app; [right|left]; auto.
        * apply in_or_app. left. eauto.
      + intros c Hc. apply in_app_or in Hc as [Hc|Hc]; [auto|].
        apply in_app_or in Hc as [Hc|Hc]; auto. }
  intros w1 Ht1 Hl1 H. apply Hloop in H as (added & Ht & Hl & Hin & Hall).
  exists (added ++ [CChown dest (git_uid self) (git_gid self)])%list.
  split; [|split; [|split; [|split]]].
  - rewrite Ht, Ht1. now rewrite <- app_assoc.
  - congruence.
  - apply in_or_app. right. now left.
  - intros. apply in_or_app. left. eauto.
  - intros c Hc. apply in_app_or in Hc as [Hc|[<-|[]]]; eauto.
Qed.

(** The change of owner is the part of [copy_and_chown] after the copy
    and its two log records. *)
Lemma copy_and_chown_chowns self repo dest w :
  copy_and_chown self repo dest w =
    (set_refs_remotes_path
       (Py.os_path_join (Py.os_path_join repo "refs") "remotes") ;;;
     copytree repo dest (ignore_files_callback self) ;;;
     logger DEBUG "Done copying" [] ;;;
     logger INFO "Recursively setting ownership on %s to %d:%d"
            [PStr dest; PInt (git_uid self); PInt (git_gid self)] ;;;
     chown_tree self dest ;;;
     logger DEBUG "Done chown'ing" []) w.
Proof.
  unfold copy_and_chown, chown_tree, bind, set_refs_remotes_path, logger, ask.
  repeat case_match; simplify_eq; try reflexivity; congruence.
Qed.

End OwnersMore.

(** ** What a normal return of [run] means *)

Section RunReturn.
Context {S : Type} `{!Platform S}.
Implicit Types (self : Importer) (w : World S).

(** X22.  When [run] returns normally, the group's directory existed,
    the loop came to its end with a count of zero failed repos, and the
    count of imported repos is the number of paths that existed when
    they were tested: exit status 0 means that every path that was there
    was imported, and says nothing of paths that were not. *)
Theorem normal_return_means_no_failure self group paths st mh w w' :
  run self group paths st mh w = (Ret tt, w') ->
  exists create_path succeeded w0 w1,
    join_repos_dir (repos_dir self) group
      (logged (Log INFO "Importing repos under group '%s'" [PStr group]) w)
      = (Ret create_path, w0) /\
    os_path_exists create_path (os w0) = true /\
    run_loop self create_path group st mh paths (0, 0)%nat w0
      = (Ret (0%nat, succeeded), w1) /\
    succeeded = checked_existing self create_path group st mh paths w0 /\
    head (log w') =
      Some (Log INFO "Done with all repos; imported %d, %d failed."
                [PInt (Z.of_nat succeeded); PInt 0]).
Proof.
  unfold run. unfold bind at 1. unfold logger at 1. cbv beta iota.
  fold (logged (Log INFO "Importing repos under group '%s'" [PStr group]) w).
  unfold bind at 1.
  destruct (join_repos_dir (repos_dir self) group _) as [[cp|e] w0] eqn:Ej;
    [|discriminate].
  unfold bind at 1, ask at 1.
  destruct (os_path_exists cp (os w0)) eqn:He; cbn [negb].
  2:{ unfold bind, logger, raise. discriminate. }
  unfold bind at 1.
  destruct (run_loop self cp group st mh paths (0%nat, 0%nat) w0)
    as [[[f s]|e] w1] eqn:El; [|discriminate].
  unfold run_finish, bind, logger, raise, ret.
  destruct f as [|f]; cbn [Nat.ltb Nat.leb]; [|discriminate].
  intros [= <-].
  exists cp, s, w0, w1. repeat split; try assumption.
  apply run_loop_counts in El. lia.
Qed.

End RunReturn.

Lemma chown_tree_covers_walk_witness :
  In (CChown "/data/repos/foo.git/hooks/update" 998 997)
     (trace (snd (chown_tree (Demo.importer true true) "/data/repos/foo.git"
                    (Sim.world Demo.healthy)))).
Proof.
  destruct (chown_tree_covers_walk (Demo.importer true true)
              "/data/repos/foo.git" (Sim.world Demo.healthy)
              (snd (chown_tree (Demo.importer true true) "/data/repos/foo.git"
                      (Sim.world Demo.healthy))))
    as (added & Ht & _ & _ & Hin & _); [vm_compute; reflexivity|].
  rewrite Ht. apply in_or_app. left.
  apply (Hin "/data/repos/foo.git/hooks" [] ["update"] "update");
    [vm_compute; tauto|now left].
Defined.

Lemma normal_return_means_no_failure_witness :
  exists succeeded,
    head (log (snd (run (Demo.importer true true) "eng"
                      ["/data/repos/foo.git"; "/nope"]
                      [("visibility", PStr "public")] true
                      (Sim.world Demo.healthy)))) =
      Some (Log INFO "Done with all repos; imported %d, %d failed."
                [PInt (Z.of_nat succeeded); PInt 0]).
Proof.
  destruct (normal_return_means_no_failure (Demo.importer true true) "eng"
              ["/data/repos/foo.git"; "/nope"]
              [("visibility", PStr "public")] true (Sim.world Demo.healthy)
              (snd (run (Demo.importer true true) "eng"
                      ["/data/repos/foo.git"; "/nope"]
                      [("visibility", PStr "public")] true
                      (Sim.world Demo.healthy))))
    as (cp & s & w0 & w1 & _ & _ & _ & _ & H); [vm_compute; reflexivity|].
  exists s. exact H.
Defined.
